(** * lapptrack / appdownload: the product synchronization pipeline

  A shallow embedding of [appdownload/appdownload.py] (the orchestrator,
  the catalog store and the applist exporter) and of
  [appdownload/cots/makemkv.py] and [appdownload/cots/dummy.py] (two product
  plugins), with the properties of the pipeline stated over it.

  Conventions of the embedding.
  - A Python [dict] (and a [configparser] section, which is one) is an
    insertion-ordered association list with unique keys, module [Dict].
  - A [configparser.ConfigParser] is a dict of sections.  Its [DEFAULT]
    section and value interpolation are not used by the files the program
    writes and are left out; option names are the lower-case literals of
    the source.
  - An exception is a value of [exn]; code that may raise returns a
    [result], and code that also changes the application object or the
    outside world is a function from a state to a result and a state, the
    state being the one at the point of the raise.
  - Calls to the [logging] module of the orchestrator are not effects any
    property here speaks of and are left out; the plugin's log is kept. *)

From Stdlib Require Import String Ascii List Bool Arith ZArith Lia.
Import ListNotations.
Local Open Scope string_scope.
Local Open Scope list_scope.

(** ** Insertion-ordered dictionaries *)

Module Dict.
Section Defs.
Context {V : Type}.

Definition t := list (string * V).

Definition empty : t := [].

(** [d.get(k)] *)
Fixpoint get (k : string) (d : t) : option V :=
  match d with
  | [] => None
  | (k', v) :: d' => if String.eqb k k' then Some v else get k d'
  end.

(** [k in d] *)
Definition contains (k : string) (d : t) : bool :=
  match get k d with Some _ => true | None => false end.

(** [d[k] = v]: an existing key keeps its place, a new one goes last. *)
Fixpoint set (k : string) (v : V) (d : t) : t :=
  match d with
  | [] => [(k, v)]
  | (k', v') :: d' =>
      if String.eqb k k' then (k, v) :: d' else (k', v') :: set k v d'
  end.

(** [del d[k]] *)
Fixpoint remove (k : string) (d : t) : t :=
  match d with
  | [] => []
  | (k', v') :: d' =>
      if String.eqb k k' then remove k d' else (k', v') :: remove k d'
  end.

Definition keys (d : t) : list string := map fst d.
End Defs.
Arguments t : clear implicits.
End Dict.

(** ** Exceptions and results *)

Inductive exn : Type :=
| KeyError (key : string)
| ValueError (msg : string)
| TypeError (msg : string)
| OSError (msg : string)
| ParseError (msg : string)
| ImportError (name : string)
| MissingMandatorySectionError (section_name : string)
| MissingAppSectionError (section_name : string)
| MissingKeyError (section_name keyname : string)
| NotDeclaredSetError (app_name set_name : string)
| AssertionError.

Inductive result (A : Type) : Type :=
| Ok (a : A)
| Raise (e : exn).
Arguments Ok {A} a.
Arguments Raise {A} e.

Definition bind {A B : Type} (r : result A) (k : A -> result B) : result B :=
match r with
| Ok a => k a
| Raise e => Raise e
end.

Declare Scope exn_scope.
Delimit Scope exn_scope with exn.
Notation "x <- r ;; k" := (bind r (fun x => k))
(at level 100, r at next level, right associativity) : exn_scope.

(** ** Strings: the pieces of [str] the program uses *)

Module Str.
(** [c.lower()] on an ASCII letter *)
Definition lower_ascii (c : ascii) : ascii :=
  let n := nat_of_ascii c in
  if Nat.leb 65 n && Nat.leb n 90 then ascii_of_nat (n + 32) else c.

(** [s.lower()] *)
Fixpoint lower (s : string) : string :=
  match s with
  | EmptyString => EmptyString
  | String c s' => String (lower_ascii c) (lower s')
  end.

(** [c.isspace()] on an ASCII character *)
Definition isspace (c : ascii) : bool :=
  let n := nat_of_ascii c in
  (Nat.leb 9 n && Nat.leb n 13) || (Nat.leb 28 n && Nat.leb n 32).

Fixpoint lstrip (s : string) : string :=
  match s with
  | EmptyString => EmptyString
  | String c s' => if isspace c then lstrip s' else s
  end.

(** [rstrip] drops a character when it is a space and all that follows
    it is dropped too. *)
Fixpoint rstrip (s : string) : string :=
  match s with
  | EmptyString => EmptyString
  | String c s' =>
      match rstrip s' with
      | EmptyString => if isspace c then EmptyString else String c EmptyString
      | r => String c r
      end
  end.

(** [s.strip()] *)
Definition strip (s : string) : string := rstrip (lstrip s).

(** [s.split(sep)] for a one-character separator: the current piece is
    accumulated in reverse in [acc]. *)
Fixpoint split_aux (sep : ascii) (acc : string) (s : string) : list string :=
  match s with
  | EmptyString => [acc]
  | String c s' =>
      if Ascii.eqb c sep then acc :: split_aux sep EmptyString s'
      else split_aux sep (acc ++ String c EmptyString)%string s'
  end.

Definition split (sep : ascii) (s : string) : list string :=
  split_aux sep EmptyString s.

(** The newline character, as a string. *)
Definition nl : string := String (ascii_of_nat 10) EmptyString.

Definition tab : string := String (ascii_of_nat 9) EmptyString.

(** [s.replace(nl, nl + tab)] *)
Fixpoint indent_newlines (s : string) : string :=
  match s with
  | EmptyString => EmptyString
  | String c s' =>
      if Ascii.eqb c (ascii_of_nat 10) then (nl ++ tab ++ indent_newlines s')%string
      else String c (indent_newlines s')
  end.
End Str.

(** ** configparser *)

Module ConfigParser.
(** A section: option name to raw value. *)
Definition SectionProxy := Dict.t string.

(** A parser: section name to section. *)
Definition t := Dict.t SectionProxy.

Definition empty : t := [].

(** [parser.sections()] *)
Definition sections (c : t) : list string := Dict.keys c.

(** [name in parser.sections()] *)
Definition has_section (name : string) (c : t) : bool := Dict.contains name c.

(** [parser.add_section(name)], called where the section is absent. *)
Definition add_section (name : string) (c : t) : t := Dict.set name [] c.

(** [parser.remove_section(name)] *)
Definition remove_section (name : string) (c : t) : t := Dict.remove name c.

(** [parser[name]] *)
Definition getitem (name : string) (c : t) : result SectionProxy :=
  match Dict.get name c with
  | Some s => Ok s
  | None => Raise (KeyError name)
  end.

(** [parser.optionxform]: option names are looked up in lower case. *)
Definition optionxform (key : string) : string := Str.lower key.

(** [key in section] *)
Definition has_option (key : string) (s : SectionProxy) : bool :=
  Dict.contains (optionxform key) s.

(** [section[key]] *)
Definition get (key : string) (s : SectionProxy) : result string :=
  match Dict.get (optionxform key) s with
  | Some v => Ok v
  | None => Raise (KeyError key)
  end.

(** [parser[name][key] = value] through the section proxy: the write goes
    to the parser's own section. *)
Definition setitem (name key value : string) (c : t) : t :=
  match Dict.get name c with
  | Some s => Dict.set name (Dict.set (optionxform key) value s) c
  | None => c
  end.

(** [parser.read_dict(src)], which [read_file] ends in: the sections and
    options of [src] are added to the parser, over what it holds. *)
Definition read_section (name : string) (s : SectionProxy) (c : t) : t :=
  fold_left (fun c kv => setitem name (fst kv) (snd kv) c) s
    (if has_section name c then c else add_section name c).

Definition read_dict (src : t) (c : t) : t :=
  fold_left (fun c ns => read_section (fst ns) (snd ns) c) src c.

(** [RawConfigParser.BOOLEAN_STATES] *)
Definition BOOLEAN_STATES : Dict.t bool :=
  [("1", true); ("yes", true); ("true", true); ("on", true);
   ("0", false); ("no", false); ("false", false); ("off", false)].

(** [section.getboolean(key)]: the fallback [None] when the option is
    absent, [ValueError] when the value is no boolean spelling. *)
Definition getboolean (key : string) (s : SectionProxy) : result (option bool) :=
  match Dict.get (optionxform key) s with
  | None => Ok None
  | Some v =>
      match Dict.get (Str.lower v) BOOLEAN_STATES with
      | Some b => Ok (Some b)
      | None => Raise (ValueError ("Not a boolean: " ++ v)%string)
      end
  end.

(** Truth value of what [getboolean] returned, as an [if] takes it. *)
Definition truthy (b : option bool) : bool :=
  match b with Some true => true | _ => false end.

(** [parser.write(fp)]: the strings handed to [fp.write], in order. *)
Definition write_section (name : string) (s : SectionProxy) : list string :=
  ("[" ++ name ++ "]" ++ Str.nl)%string
    :: map (fun kv =>
              (fst kv ++ " = " ++ Str.indent_newlines (snd kv) ++ Str.nl)%string) s
    ++ [Str.nl].

Definition write (c : t) : list string :=
  flat_map (fun ns => write_section (fst ns) (snd ns)) c.
End ConfigParser.

(** ** Code that raises and changes a state *)

Module SE.
Section Defs.
Context {S : Type}.

(** A computation over the state [S]: its outcome and the state it
    leaves, which on a raise is the state at the raise. *)
Definition M (A : Type) : Type := S -> result A * S.

Definition ret {A : Type} (a : A) : M A := fun s => (Ok a, s).

Definition raise {A : Type} (e : exn) : M A := fun s => (Raise e, s).

Definition bind {A B : Type} (m : M A) (k : A -> M B) : M B :=
  fun s =>
    match m s with
    | (Ok a, s') => k a s'
    | (Raise e, s') => (Raise e, s')
    end.

(** A pure computation that may raise. *)
Definition lift {A : Type} (r : result A) : M A := fun s => (r, s).

Definition get : M S := fun s => (Ok s, s).

Definition modify (f : S -> S) : M unit := fun s => (Ok tt, f s).

(** [for x in l: body(x)] *)
Fixpoint for_each {A : Type} (body : A -> M unit) (l : list A) : M unit :=
  match l with
  | [] => ret tt
  | x :: l' => bind (body x) (fun _ => for_each body l')
  end.

(** A computation keeps a part [f] of the state when the state it leaves,
    whether it returns or raises, has the part it started with. *)
Definition keeps {A X : Type} (f : S -> X) (m : M A) : Prop :=
  forall s r s', m s = (r, s') -> f s' = f s.

(** A computation maintains a property [I] of the state when, started
    where [I] holds, it leaves a state where [I] holds, whether it returns
    or raises. *)
Definition maintains {A : Type} (I : S -> Prop) (m : M A) : Prop :=
  forall s r s', I s -> m s = (r, s') -> I s'.
End Defs.
Arguments M : clear implicits.
End SE.

Declare Scope se_scope.
Delimit Scope se_scope with se.
Notation "x <- m ;; k" := (SE.bind m (fun x => k))
(at level 100, m at next level, right associativity) : se_scope.
Notation "m ;; k" := (SE.bind m (fun _ => k))
(at level 100, right associativity) : se_scope.

(** ** cots.core, as the orchestrator sees it *)

Module Core.
(** Modelled from the spec: the class [core.BaseProduct] is declared in
    [cots/core.py], which is not among the sources.  Its fields are the
    ProductRecord's: the attributes [appdownload.py] reads and writes on a
    product, under the names that file uses. *)
Record BaseProduct : Type := {
  id : string;
  name : string;
  version : string;
  published : string;
  target : string;
  release_note : string;
  installer : string;
  std_inst_args : string;
  silent_inst_arg : string;
  update_available : bool;
  update_version : string;
  update_published : string
}.

Definition set_id v p :=
  {| id := v; name := name p; version := version p;
     published := published p; target := target p;
     release_note := release_note p; installer := installer p;
     std_inst_args := std_inst_args p; silent_inst_arg := silent_inst_arg p;
     update_available := update_available p;
     update_version := update_version p;
     update_published := update_published p |}.
Definition set_name v p :=
  {| id := id p; name := v; version := version p;
     published := published p; target := target p;
     release_note := release_note p; installer := installer p;
     std_inst_args := std_inst_args p; silent_inst_arg := silent_inst_arg p;
     update_available := update_available p;
     update_version := update_version p;
     update_published := update_published p |}.
Definition set_version v p :=
  {| id := id p; name := name p; version := v;
     published := published p; target := target p;
     release_note := release_note p; installer := installer p;
     std_inst_args := std_inst_args p; silent_inst_arg := silent_inst_arg p;
     update_available := update_available p;
     update_version := update_version p;
     update_published := update_published p |}.
Definition set_published v p :=
  {| id := id p; name := name p; version := version p;
     published := v; target := target p;
     release_note := release_note p; installer := installer p;
     std_inst_args := std_inst_args p; silent_inst_arg := silent_inst_arg p;
     update_available := update_available p;
     update_version := update_version p;
     update_published := update_published p |}.
Definition set_target v p :=
  {| id := id p; name := name p; version := version p;
     published := published p; target := v;
     release_note := release_note p; installer := installer p;
     std_inst_args := std_inst_args p; silent_inst_arg := silent_inst_arg p;
     update_available := update_available p;
     update_version := update_version p;
     update_published := update_published p |}.
Definition set_release_note v p :=
  {| id := id p; name := name p; version := version p;
     published := published p; target := target p;
     release_note := v; installer := installer p;
     std_inst_args := std_inst_args p; silent_inst_arg := silent_inst_arg p;
     update_available := update_available p;
     update_version := update_version p;
     update_published := update_published p |}.
Definition set_installer v p :=
  {| id := id p; name := name p; version := version p;
     published := published p; target := target p;
     release_note := release_note p; installer := v;
     std_inst_args := std_inst_args p; silent_inst_arg := silent_inst_arg p;
     update_available := update_available p;
     update_version := update_version p;
     update_published := update_published p |}.
Definition set_std_inst_args v p :=
  {| id := id p; name := name p; version := version p;
     published := published p; target := target p;
     release_note := release_note p; installer := installer p;
     std_inst_args := v; silent_inst_arg := silent_inst_arg p;
     update_available := update_available p;
     update_version := update_version p;
     update_published := update_published p |}.
Definition set_silent_inst_arg v p :=
  {| id := id p; name := name p; version := version p;
     published := published p; target := target p;
     release_note := release_note p; installer := installer p;
     std_inst_args := std_inst_args p; silent_inst_arg := v;
     update_available := update_available p;
     update_version := update_version p;
     update_published := update_published p |}.
Definition set_update_available v p :=
  {| id := id p; name := name p; version := version p;
     published := published p; target := target p;
     release_note := release_note p; installer := installer p;
     std_inst_args := std_inst_args p; silent_inst_arg := silent_inst_arg p;
     update_available := v;
     update_version := update_version p;
     update_published := update_published p |}.
Definition set_update_version v p :=
  {| id := id p; name := name p; version := version p;
     published := published p; target := target p;
     release_note := release_note p; installer := installer p;
     std_inst_args := std_inst_args p; silent_inst_arg := silent_inst_arg p;
     update_available := update_available p;
     update_version := v;
     update_published := update_published p |}.
Definition set_update_published v p :=
  {| id := id p; name := name p; version := version p;
     published := published p; target := target p;
     release_note := release_note p; installer := installer p;
     std_inst_args := std_inst_args p; silent_inst_arg := silent_inst_arg p;
     update_available := update_available p;
     update_version := update_version p;
     update_published := v |}.

(** A product module as [importlib.import_module] returns it: the
    [Product] class, through a fresh instance and its two operations.
    What an operation does to the network and to the installer store is
    outside the state of the orchestrator; an operation either returns
    with the product object as it left it, or raises. *)
Record module : Type := {
  Product : BaseProduct;
  check_update : BaseProduct -> result BaseProduct;
  fetch_update : BaseProduct -> string -> result BaseProduct
}.
End Core.

(** ** appdownload.py *)

Module AppDownload.
Import SE.
Local Open Scope se_scope.

(** Section and value names of the configuration file. *)
Definition _APPS_LIST_SECTNAME := "applications".
Definition _APP_INSTALL_KEYNAME := "install".
Definition _APP_MODULE_KEYNAME := "module".
Definition _APP_PATH_KEYNAME := "path".
Definition _APP_SET_KEYNAME := "set".
Definition _CORE_SECTNAME := "core".
Definition _STORE_KEYNAME := "store".
Definition _SETS_LIST_SECTNAME := "sets".

(** Section and value names of the catalog file. *)
Definition _CATALOG_FILENAME := "catalog.ini".
Definition _PROD_NAME_KEYNAME := "name".
Definition _PROD_VERSION_KEYNAME := "version".
Definition _PROD_PUBDATE_KEYNAME := "published".
Definition _PROD_TARGET_KEYNAME := "target".
Definition _PROD_REL_NOTE_URL_KEYNAME := "release_note".
Definition _PROD_INSTALLER_KEYNAME := "installer".
Definition _PROD_STD_INSTALL_ARGS_KEYNAME := "std_inst_args".
Definition _PROD_SILENT_INSTALL_ARGS_KEYNAME := "silent_inst_args".
Definition _PROD_UPDATE_AVAIL_KEYNAME := "update_available".
Definition _PROD_UPDATE_VERSION_KEYNAME := "update_version".
Definition _PROD_UPDATE_PUBDATE_KEYNAME := "update_published".

(** The applist files. *)
Definition _APPLIST_SEP := ";".
Definition _APPLIST_PREFIX := "applist-".
Definition _APPLIST_EXT := ".txt".


(** *** The catalog store: one product in, one product out *)

(** One [if key in app_props: product.attr = app_props[key]]. *)
Definition load_key (key : string) (app_props : ConfigParser.SectionProxy)
    (assign : string -> Core.BaseProduct -> Core.BaseProduct)
    (product : Core.BaseProduct) : result Core.BaseProduct :=
  if ConfigParser.has_option key app_props then
    (v <- ConfigParser.get key app_props ;; Ok (assign v product))%exn
  else Ok product.

(** The same for [update_available], read with [getboolean]. *)
Definition load_update_available (app_props : ConfigParser.SectionProxy)
    (product : Core.BaseProduct) : result Core.BaseProduct :=
  if ConfigParser.has_option _PROD_UPDATE_AVAIL_KEYNAME app_props then
    (b <- ConfigParser.getboolean _PROD_UPDATE_AVAIL_KEYNAME app_props ;;
     match b with
     | Some b => Ok (Core.set_update_available b product)
     | None => Ok product
     end)%exn
  else Ok product.

(** [_load_product(section_name, product)]: the product after the call.
    An absent section leaves the product as it is. *)
Definition _load_product (section_name : string)
    (product : Core.BaseProduct) (catalog : ConfigParser.t)
    : result Core.BaseProduct :=
  if ConfigParser.has_section section_name catalog then
    (app_props <- ConfigParser.getitem section_name catalog ;;
     let product := Core.set_id section_name product in
     product <- load_key _PROD_NAME_KEYNAME app_props Core.set_name product ;;
     product <- load_key _PROD_VERSION_KEYNAME app_props Core.set_version product ;;
     product <- load_key _PROD_PUBDATE_KEYNAME app_props Core.set_published product ;;
     product <- load_key _PROD_TARGET_KEYNAME app_props Core.set_target product ;;
     product <- load_key _PROD_REL_NOTE_URL_KEYNAME app_props Core.set_release_note product ;;
     product <- load_key _PROD_INSTALLER_KEYNAME app_props Core.set_installer product ;;
     product <- load_key _PROD_STD_INSTALL_ARGS_KEYNAME app_props Core.set_std_inst_args product ;;
     product <- load_key _PROD_SILENT_INSTALL_ARGS_KEYNAME app_props Core.set_silent_inst_arg product ;;
     product <- load_update_available app_props product ;;
     product <- load_key _PROD_UPDATE_VERSION_KEYNAME app_props Core.set_update_version product ;;
     product <- load_key _PROD_UPDATE_PUBDATE_KEYNAME app_props Core.set_update_published product ;;
     Ok product)%exn
  else Ok product.

(** [_dump_product(section_name, product)]: the catalog after the
    call.  The section is created, or removed and created again, then
    filled key by key. *)
Definition _dump_product (section_name : string)
    (product : Core.BaseProduct) (catalog : ConfigParser.t)
    : ConfigParser.t :=
  let catalog :=
    if negb (ConfigParser.has_section section_name catalog) then
      ConfigParser.add_section section_name catalog
    else
      ConfigParser.add_section section_name
        (ConfigParser.remove_section section_name catalog) in
  let put key value := ConfigParser.setitem section_name key value in
  let catalog := put _PROD_NAME_KEYNAME (Core.name product) catalog in
  let catalog := put _PROD_VERSION_KEYNAME (Core.version product) catalog in
  let catalog := put _PROD_PUBDATE_KEYNAME (Core.published product) catalog in
  let catalog := put _PROD_TARGET_KEYNAME (Core.target product) catalog in
  let catalog := put _PROD_REL_NOTE_URL_KEYNAME (Core.release_note product) catalog in
  let catalog := put _PROD_INSTALLER_KEYNAME (Core.installer product) catalog in
  let catalog := put _PROD_STD_INSTALL_ARGS_KEYNAME (Core.std_inst_args product) catalog in
  let catalog := put _PROD_SILENT_INSTALL_ARGS_KEYNAME (Core.silent_inst_arg product) catalog in
  let catalog :=
    if Core.update_available product then
      put _PROD_UPDATE_AVAIL_KEYNAME "yes" catalog
    else
      put _PROD_UPDATE_AVAIL_KEYNAME "no" catalog in
  let catalog := put _PROD_UPDATE_VERSION_KEYNAME (Core.update_version product) catalog in
  let catalog := put _PROD_UPDATE_PUBDATE_KEYNAME (Core.update_published product) catalog in
  catalog.

(** *** The application object and the world around it *)

(** What the program takes from outside itself. *)
Record Env : Type := {
  (** [importlib.import_module(mod_name)] *)
  import_module : string -> result Core.module;
  (** what [ConfigParser.read_file] parses out of a file's content *)
  parse_ini : list string -> result ConfigParser.t;
  (** [os.path.abspath] *)
  abspath : string -> string;
  (** [datetime.datetime.now().replace(microsecond=0).isoformat()] at the
      n-th reading of the clock *)
  now_isoformat : nat -> string
}.

(** The attributes of an [AppDownload] object, and with them the files
    on disk (a path to the strings written to it so far, for the files
    the program opens), the files it holds open and the number of
    readings of the clock. *)
Record state : Type := {
  _config_file : ConfigParser.t;
  _config : ConfigParser.t;
  _checked_config : bool;
  _catalog_filename : string;
  _catalog : ConfigParser.t;
  _app_set_file : Dict.t string;
  fs : Dict.t (list string);
  open_files : list string;
  ticks : nat
}.

Definition set_config v s :=
  {| _config_file := _config_file s; _config := v;
     _checked_config := _checked_config s;
     _catalog_filename := _catalog_filename s; _catalog := _catalog s;
     _app_set_file := _app_set_file s; fs := fs s;
     open_files := open_files s; ticks := ticks s |}.
Definition set_checked_config v s :=
  {| _config_file := _config_file s; _config := _config s;
     _checked_config := v;
     _catalog_filename := _catalog_filename s; _catalog := _catalog s;
     _app_set_file := _app_set_file s; fs := fs s;
     open_files := open_files s; ticks := ticks s |}.
Definition set_catalog_filename v s :=
  {| _config_file := _config_file s; _config := _config s;
     _checked_config := _checked_config s;
     _catalog_filename := v; _catalog := _catalog s;
     _app_set_file := _app_set_file s; fs := fs s;
     open_files := open_files s; ticks := ticks s |}.
Definition set_catalog v s :=
  {| _config_file := _config_file s; _config := _config s;
     _checked_config := _checked_config s;
     _catalog_filename := _catalog_filename s; _catalog := v;
     _app_set_file := _app_set_file s; fs := fs s;
     open_files := open_files s; ticks := ticks s |}.
Definition set_app_set_file v s :=
  {| _config_file := _config_file s; _config := _config s;
     _checked_config := _checked_config s;
     _catalog_filename := _catalog_filename s; _catalog := _catalog s;
     _app_set_file := v; fs := fs s;
     open_files := open_files s; ticks := ticks s |}.
Definition set_fs v s :=
  {| _config_file := _config_file s; _config := _config s;
     _checked_config := _checked_config s;
     _catalog_filename := _catalog_filename s; _catalog := _catalog s;
     _app_set_file := _app_set_file s; fs := v;
     open_files := open_files s; ticks := ticks s |}.
Definition set_open_files v s :=
  {| _config_file := _config_file s; _config := _config s;
     _checked_config := _checked_config s;
     _catalog_filename := _catalog_filename s; _catalog := _catalog s;
     _app_set_file := _app_set_file s; fs := fs s;
     open_files := v; ticks := ticks s |}.
Definition set_ticks v s :=
  {| _config_file := _config_file s; _config := _config s;
     _checked_config := _checked_config s;
     _catalog_filename := _catalog_filename s; _catalog := _catalog s;
     _app_set_file := _app_set_file s; fs := fs s;
     open_files := open_files s; ticks := v |}.

(** [AppDownload(config_file)] on a disk [disk]. *)
Definition __init__ (config_file : ConfigParser.t)
    (disk : Dict.t (list string)) : state :=
  {| _config_file := config_file; _config := ConfigParser.empty;
     _checked_config := false; _catalog_filename := "";
     _catalog := ConfigParser.empty; _app_set_file := Dict.empty;
     fs := disk; open_files := []; ticks := 0 |}.

(** *** Files *)

(** What one call does to the file at a path: [open(path, "w+t")]
    empties or creates it, [file.write(s)] adds [s] at its end. *)
Inductive file_op : Type :=
| Truncate
| Append (s : string).

Definition apply_op (path : string) (disk : Dict.t (list string))
    (op : file_op) : Dict.t (list string) :=
  match op with
  | Truncate => Dict.set path [] disk
  | Append s =>
      match Dict.get path disk with
      | Some written => Dict.set path (written ++ [s]) disk
      | None => disk
      end
  end.

Definition apply_ops (path : string) (ops : list file_op)
    (disk : Dict.t (list string)) : Dict.t (list string) :=
  fold_left (apply_op path) ops disk.

(** [open(path, "w+t")] *)
Definition open_w (path : string) : M state unit :=
  modify (fun s =>
    set_open_files (path :: open_files s)
      (set_fs (apply_op path (fs s) Truncate) s)).

(** [file.write(text)] *)
Definition file_write (path text : string) : M state unit :=
  modify (fun s => set_fs (apply_op path (fs s) (Append text)) s).

(** [file.close()] *)
Definition file_close (path : string) : M state unit :=
  modify (fun s =>
    set_open_files
      (filter (fun p => negb (String.eqb p path)) (open_files s)) s).

(** The clock, read once more. *)
Definition now (E : Env) : M state string :=
  s <- get ;;
  modify (set_ticks (Datatypes.S (ticks s))) ;;
  ret (now_isoformat E (ticks s)).

(** [os.path.join(a, b)], with [/] for the separator. *)
Definition os_path_join (a b : string) : string :=
  if String.prefix "/" b then b
  else if String.eqb a "" then b
  else if String.eqb (String.substring (String.length a - 1) 1 a) "/"
       then (a ++ b)%string
       else (a ++ "/" ++ b)%string.

(** *** Configuration *)

(** The checks [_load_config] makes on one entry of the applications
    section. *)
Definition _load_config_app (sets : ConfigParser.SectionProxy)
    (app_name : string) : M state unit :=
  s <- get ;;
  apps <- lift (ConfigParser.getitem _APPS_LIST_SECTNAME (_config s)) ;;
  flag <- lift (ConfigParser.getboolean app_name apps) ;;
  if ConfigParser.truthy flag then
    if ConfigParser.has_section app_name (_config s) then
      app_desc <- lift (ConfigParser.getitem app_name (_config s)) ;;
      (if ConfigParser.has_option _APP_MODULE_KEYNAME app_desc then ret tt
       else raise (MissingKeyError app_name _APP_MODULE_KEYNAME)) ;;
      if ConfigParser.has_option _APP_SET_KEYNAME app_desc then
        set_name <- lift (ConfigParser.get _APP_SET_KEYNAME app_desc) ;;
        if ConfigParser.has_option set_name sets then ret tt
        else raise (NotDeclaredSetError app_name set_name)
      else raise (MissingKeyError app_name _APP_SET_KEYNAME)
    else raise (MissingAppSectionError app_name)
  else ret tt.

(** [_load_config()].  The creation of the store directory and the set-up
    of the logging are left out. *)
Definition _load_config (E : Env) : M state unit :=
  modify (fun s =>
    set_config (ConfigParser.read_dict (_config_file s) (_config s)) s) ;;
  s <- get ;;
  (if ConfigParser.has_section _CORE_SECTNAME (_config s) then
     section <- lift (ConfigParser.getitem _CORE_SECTNAME (_config s)) ;;
     if ConfigParser.has_option _STORE_KEYNAME section then
       store <- lift (ConfigParser.get _STORE_KEYNAME section) ;;
       modify (set_catalog_filename
                 (abspath E (os_path_join store _CATALOG_FILENAME)))
     else raise (MissingKeyError _STORE_KEYNAME _CORE_SECTNAME)
   else raise (MissingMandatorySectionError _CORE_SECTNAME)) ;;
  sets <-
    (if ConfigParser.has_section _SETS_LIST_SECTNAME (_config s) then
       lift (ConfigParser.getitem _SETS_LIST_SECTNAME (_config s))
     else raise (MissingMandatorySectionError _SETS_LIST_SECTNAME)) ;;
  (if ConfigParser.has_section _APPS_LIST_SECTNAME (_config s) then
     apps <- lift (ConfigParser.getitem _APPS_LIST_SECTNAME (_config s)) ;;
     for_each (_load_config_app sets) (Dict.keys apps)
   else raise (MissingMandatorySectionError _APPS_LIST_SECTNAME)) ;;
  modify (set_checked_config true).

(** *** The catalog file *)

(** [_read_catalog()]: a catalog file that does not exist is no error. *)
Definition _read_catalog (E : Env) : M state unit :=
  s <- get ;;
  match Dict.get (_catalog_filename s) (fs s) with
  | None => ret tt
  | Some content =>
      parsed <- lift (parse_ini E content) ;;
      modify (set_catalog (ConfigParser.read_dict parsed (_catalog s)))
  end.

Definition rule : string :=
  "# ------------------------------------------------------------------------------".

Definition catalog_header (dt : string) : string :=
  (rule ++ Str.nl ++
   "# This file is automatically generated on " ++ dt ++ "," ++ Str.nl ++
   "# and must not be manually modified." ++ Str.nl ++
   "# It contains the applications database and specifies for each application the" ++ Str.nl ++
   "# following properties. Appdownload script uses this database to build the" ++ Str.nl ++
   "# applist files used by appdeploy script." ++ Str.nl ++
   rule ++ Str.nl)%string.

(** What [_write_catalog] does to the catalog file, call by call: the
    [open] for writing, the header, then what [catalog.write] writes. *)
Definition catalog_ops (dt : string) (catalog : ConfigParser.t)
    : list file_op :=
  Truncate :: Append (catalog_header dt)
    :: map Append (ConfigParser.write catalog).

(** [_write_catalog()] *)
Definition _write_catalog (E : Env) : M state unit :=
  s <- get ;;
  let file := _catalog_filename s in
  open_w file ;;
  dt <- now E ;;
  file_write file (catalog_header dt) ;;
  for_each (file_write file) (ConfigParser.write (_catalog s)) ;;
  file_close file.


(** *** Check and fetch *)

(** [assert self._checked_config is True] *)
Definition assert_checked_config : M state unit :=
  s <- get ;;
  if _checked_config s then ret tt else raise AssertionError.

(** [self._load_product(app_id, app)] on the catalog of the object *)
Definition load_product (app_id : string) (app : Core.BaseProduct)
    : M state Core.BaseProduct :=
  s <- get ;;
  lift (_load_product app_id app (_catalog s)).

(** [self._dump_product(app_id, app)] on the catalog of the object *)
Definition dump_product (app_id : string) (app : Core.BaseProduct)
    : M state unit :=
  modify (fun s => set_catalog (_dump_product app_id app (_catalog s)) s).

(** The body of the loop of [_check_update]. *)
Definition _check_update_app (E : Env) (app_id : string) : M state unit :=
  s <- get ;;
  apps <- lift (ConfigParser.getitem _APPS_LIST_SECTNAME (_config s)) ;;
  flag <- lift (ConfigParser.getboolean app_id apps) ;;
  if ConfigParser.truthy flag then
    app_desc <- lift (ConfigParser.getitem app_id (_config s)) ;;
    mod_name <- lift (ConfigParser.get _APP_MODULE_KEYNAME app_desc) ;;
    app_mod <- lift (import_module E mod_name) ;;
    let app := Core.Product app_mod in
    app <- load_product app_id app ;;
    app <- lift (Core.check_update app_mod app) ;;
    dump_product app_id app
  else ret tt.

(** [_check_update()] *)
Definition _check_update (E : Env) : M state unit :=
  assert_checked_config ;;
  s <- get ;;
  apps <- lift (ConfigParser.getitem _APPS_LIST_SECTNAME (_config s)) ;;
  for_each (_check_update_app E) (Dict.keys apps).

(** The body of the loop of [_fetch_update]. *)
Definition _fetch_update_app (E : Env) (app_id : string) : M state unit :=
  s <- get ;;
  apps <- lift (ConfigParser.getitem _APPS_LIST_SECTNAME (_config s)) ;;
  flag <- lift (ConfigParser.getboolean app_id apps) ;;
  if ConfigParser.truthy flag then
    app_desc <- lift (ConfigParser.getitem app_id (_config s)) ;;
    mod_name <- lift (ConfigParser.get _APP_MODULE_KEYNAME app_desc) ;;
    app_mod <- lift (import_module E mod_name) ;;
    let app := Core.Product app_mod in
    app <- load_product app_id app ;;
    app_desc <- lift (ConfigParser.getitem app_id (_config s)) ;;
    path <-
      (if negb (ConfigParser.has_option _APP_PATH_KEYNAME app_desc) then
         core <- lift (ConfigParser.getitem _CORE_SECTNAME (_config s)) ;;
         store <- lift (ConfigParser.get _STORE_KEYNAME core) ;;
         ret (os_path_join store app_id)
       else lift (ConfigParser.get _APP_PATH_KEYNAME app_desc)) ;;
    app <- lift (Core.fetch_update app_mod app path) ;;
    dump_product app_id app
  else ret tt.

(** [_fetch_update()] *)
Definition _fetch_update (E : Env) : M state unit :=
  assert_checked_config ;;
  s <- get ;;
  apps <- lift (ConfigParser.getitem _APPS_LIST_SECTNAME (_config s)) ;;
  for_each (_fetch_update_app E) (Dict.keys apps).

(** *** The applist files *)

Definition applist_header (dt comp_name : string) : string :=
  (rule ++ Str.nl ++
   "# This applist file generated on " ++ dt ++ " for '" ++ comp_name ++ "'." ++ Str.nl ++
   "# This file is automatically generated, and must not be manually modified." ++ Str.nl ++
   "# Please modify the configuration file instead (appdowload.ini by default)." ++ Str.nl ++
   rule ++ Str.nl)%string.

(** The line of a product, built from its catalog section. *)
Definition app_line_of (app_desc : ConfigParser.SectionProxy)
    : result string :=
  (target <- ConfigParser.get _PROD_TARGET_KEYNAME app_desc ;;
   name <- ConfigParser.get _PROD_NAME_KEYNAME app_desc ;;
   version <- ConfigParser.get _PROD_VERSION_KEYNAME app_desc ;;
   installer <- ConfigParser.get _PROD_INSTALLER_KEYNAME app_desc ;;
   silent <- ConfigParser.get _PROD_SILENT_INSTALL_ARGS_KEYNAME app_desc ;;
   Ok (target ++ _APPLIST_SEP ++ name ++ _APPLIST_SEP ++ version
         ++ _APPLIST_SEP ++ installer ++ _APPLIST_SEP ++ silent)%string)%exn.

(** The path of the applist file of a component. *)
Definition applist_filename (store_path comp_name : string) : string :=
  os_path_join store_path (_APPLIST_PREFIX ++ comp_name ++ _APPLIST_EXT).

(** The body of the inner loop of [_write_applist]: one component of the
    set of the product. *)
Definition _write_applist_comp (E : Env) (store_path app_line : string)
    (comp_name : string) : M state unit :=
  let comp_name := Str.strip comp_name in
  let filename := applist_filename store_path comp_name in
  s <- get ;;
  file <-
    (if negb (Dict.contains comp_name (_app_set_file s)) then
       open_w filename ;;
       modify (fun s =>
         set_app_set_file (Dict.set comp_name filename (_app_set_file s)) s) ;;
       dt <- now E ;;
       file_write filename (applist_header dt comp_name) ;;
       ret filename
     else
       match Dict.get comp_name (_app_set_file s) with
       | Some file => ret file
       | None => raise (KeyError comp_name)
       end) ;;
  file_write file (app_line ++ Str.nl).

(** The body of the outer loop of [_write_applist]: one entry of the
    applications section. *)
Definition _write_applist_app (E : Env) (app_id : string) : M state unit :=
  s <- get ;;
  apps <- lift (ConfigParser.getitem _APPS_LIST_SECTNAME (_config s)) ;;
  flag <- lift (ConfigParser.getboolean app_id apps) ;;
  if ConfigParser.truthy flag then
    app_desc <- lift (ConfigParser.getitem app_id (_catalog s)) ;;
    app_line <- lift (app_line_of app_desc) ;;
    core <- lift (ConfigParser.getitem _CORE_SECTNAME (_config s)) ;;
    store_path <- lift (ConfigParser.get _STORE_KEYNAME core) ;;
    app_conf <- lift (ConfigParser.getitem app_id (_config s)) ;;
    app_set_name <- lift (ConfigParser.get _APP_SET_KEYNAME app_conf) ;;
    sets <- lift (ConfigParser.getitem _SETS_LIST_SECTNAME (_config s)) ;;
    comps <- lift (ConfigParser.get app_set_name sets) ;;
    let comp_set := Str.split "," comps in
    for_each (_write_applist_comp E store_path app_line) comp_set
  else ret tt.

(** [_write_applist()] *)
Definition _write_applist (E : Env) : M state unit :=
  s <- get ;;
  apps <- lift (ConfigParser.getitem _APPS_LIST_SECTNAME (_config s)) ;;
  for_each (_write_applist_app E) (Dict.keys apps) ;;
  s <- get ;;
  for_each (fun item => file_close (snd item)) (_app_set_file s).



(** *** The entry points *)


(** [check()] *)
Definition check (E : Env) : M state unit :=
  _load_config E ;;
  _read_catalog E ;;
  _check_update E ;;
  _write_catalog E.

(** [download()] *)
Definition download (E : Env) : M state unit :=
  _load_config E ;;
  _read_catalog E ;;
  _fetch_update E ;;
  _write_catalog E.

(** [make()] *)
Definition make (E : Env) : M state unit :=
  _load_config E ;;
  _read_catalog E ;;
  _write_applist E.
End AppDownload.

(** ** cots/makemkv.py *)

Module MakeMKV.
Import SE.
Local Open Scope se_scope.

(** An element of the parsed PAD file, as [find] returns it: its text,
    which an empty element lacks. *)
Record Element : Type := { text : option string }.

(** The attributes of a product object that [makemkv.py] reads and
    writes.  The pending update is a product object of its own, held in
    [update]; [published] and [location] hold what [_get_release_date]
    and [_get_location] return, a string or [None]. *)
Local Set Warnings "-register-all".
Inductive Product : Type := mkProduct {
  name : string;
  version : string;
  published : option string;
  location : option string;
  target : string;
  release_note : string;
  installer : string;
  std_inst_args : string;
  silent_inst_args : string;
  product_code : string;
  update : option Product;
  _catalog_location : string;
  _parser : string -> option Element
}.

Definition set_name (v : string) (p : Product) : Product :=
  {| name := v; version := version p; published := published p; location :=
  location p; target := target p; release_note := release_note p; installer
  := installer p; std_inst_args := std_inst_args p; silent_inst_args :=
  silent_inst_args p; product_code := product_code p; update := update p;
  _catalog_location := _catalog_location p; _parser := _parser p |}.
Definition set_version (v : string) (p : Product) : Product :=
  {| name := name p; version := v; published := published p; location :=
  location p; target := target p; release_note := release_note p; installer
  := installer p; std_inst_args := std_inst_args p; silent_inst_args :=
  silent_inst_args p; product_code := product_code p; update := update p;
  _catalog_location := _catalog_location p; _parser := _parser p |}.
Definition set_published (v : option string) (p : Product) : Product :=
  {| name := name p; version := version p; published := v; location :=
  location p; target := target p; release_note := release_note p; installer
  := installer p; std_inst_args := std_inst_args p; silent_inst_args :=
  silent_inst_args p; product_code := product_code p; update := update p;
  _catalog_location := _catalog_location p; _parser := _parser p |}.
Definition set_location (v : option string) (p : Product) : Product :=
  {| name := name p; version := version p; published := published p;
  location := v; target := target p; release_note := release_note p;
  installer := installer p; std_inst_args := std_inst_args p;
  silent_inst_args := silent_inst_args p; product_code := product_code p;
  update := update p; _catalog_location := _catalog_location p; _parser :=
  _parser p |}.
Definition set_target (v : string) (p : Product) : Product :=
  {| name := name p; version := version p; published := published p;
  location := location p; target := v; release_note := release_note p;
  installer := installer p; std_inst_args := std_inst_args p;
  silent_inst_args := silent_inst_args p; product_code := product_code p;
  update := update p; _catalog_location := _catalog_location p; _parser :=
  _parser p |}.
Definition set_release_note (v : string) (p : Product) : Product :=
  {| name := name p; version := version p; published := published p;
  location := location p; target := target p; release_note := v; installer
  := installer p; std_inst_args := std_inst_args p; silent_inst_args :=
  silent_inst_args p; product_code := product_code p; update := update p;
  _catalog_location := _catalog_location p; _parser := _parser p |}.
Definition set_std_inst_args (v : string) (p : Product) : Product :=
  {| name := name p; version := version p; published := published p;
  location := location p; target := target p; release_note := release_note
  p; installer := installer p; std_inst_args := v; silent_inst_args :=
  silent_inst_args p; product_code := product_code p; update := update p;
  _catalog_location := _catalog_location p; _parser := _parser p |}.
Definition set_silent_inst_args (v : string) (p : Product) : Product :=
  {| name := name p; version := version p; published := published p;
  location := location p; target := target p; release_note := release_note
  p; installer := installer p; std_inst_args := std_inst_args p;
  silent_inst_args := v; product_code := product_code p; update := update p;
  _catalog_location := _catalog_location p; _parser := _parser p |}.
Definition set_product_code (v : string) (p : Product) : Product :=
  {| name := name p; version := version p; published := published p;
  location := location p; target := target p; release_note := release_note
  p; installer := installer p; std_inst_args := std_inst_args p;
  silent_inst_args := silent_inst_args p; product_code := v; update :=
  update p; _catalog_location := _catalog_location p; _parser := _parser p
  |}.
Definition set_update (v : option Product) (p : Product) : Product :=
  {| name := name p; version := version p; published := published p;
  location := location p; target := target p; release_note := release_note
  p; installer := installer p; std_inst_args := std_inst_args p;
  silent_inst_args := silent_inst_args p; product_code := product_code p;
  update := v; _catalog_location := _catalog_location p; _parser := _parser
  p |}.
Definition set_catalog_location (v : string) (p : Product) : Product :=
  {| name := name p; version := version p; published := published p;
  location := location p; target := target p; release_note := release_note
  p; installer := installer p; std_inst_args := std_inst_args p;
  silent_inst_args := silent_inst_args p; product_code := product_code p;
  update := update p; _catalog_location := v; _parser := _parser p |}.
Definition set_parser (v : string -> option Element) (p : Product) : Product :=
  {| name := name p; version := version p; published := published p;
  location := location p; target := target p; release_note := release_note
  p; installer := installer p; std_inst_args := std_inst_args p;
  silent_inst_args := silent_inst_args p; product_code := product_code p;
  update := update p; _catalog_location := _catalog_location p; _parser := v
  |}.

(** The levels of the logger. *)
Inductive level : Type := DEBUG | INFO | WARNING.

(** The world outside the product object: the locations asked of the
    network so far, the temporary files that exist, and the log. *)
Record World : Type := {
  requests : list (option string);
  tmp_files : list string;
  log : list (level * string)
}.

(** What [makemkv.py] takes from modules that are not among the sources
    ([cots/core.py], [cots/pad.py], [cots/semver.py]) and from Python. *)
Record Env : Type := {
  (** Modelled from the spec: the Version Ordering of [cots/semver.py],
      [SemVer(a) < SemVer(b)], an ordering function over version
      strings. *)
  semver_lt : string -> string -> bool;
  (** the attributes [core.BaseProduct.__init__] leaves *)
  BaseProduct__init__ : Product;
  (** [find] on a [pad.PadParser()] that has parsed nothing *)
  PadParser : string -> option Element;
  (** [core.BaseProduct._temporary_retrieve(url)]: the name of the
      temporary file, or the error of the retrieval *)
  _temporary_retrieve : string -> result string;
  (** [core.BaseProduct._file_retrieve(url, path)]: the name of the
      file written under [path], or the error of the retrieval *)
  _file_retrieve : option string -> string -> result string;
  (** [pad.PadParser.parse(filename)]: the [find] of the parsed file, or
      the error of the parser *)
  parse : string -> result (string -> option Element);
  (** [int(text)] *)
  int : option string -> result Z;
  (** [datetime.date(year, month, day).isoformat()] *)
  date_isoformat : Z -> Z -> Z -> result string;
  (** [core.BaseProduct._rename_installer(filename)] *)
  _rename_installer : Product -> string -> result Product;
  (** what [core.BaseProduct.dump()] returns *)
  Attributes : Type;
  (** [core.BaseProduct.dump()] *)
  dump : Product -> Attributes;
  (** [core.BaseProduct.load(attributes)] *)
  load : Attributes -> Product -> Product
}.

(** [Product()] *)
Definition __init__ (E : Env) : Product :=
  set_parser (PadParser E)
    (set_catalog_location "http://www.makemkv.com/makemkv.xml"
       (set_name "MakeMKV" (BaseProduct__init__ E))).

Definition state : Type := Product * World.

Definition self : M state Product := s <- get ;; ret (fst s).

Definition set_self (f : Product -> Product) : M state unit :=
  modify (fun s => (f (fst s), snd s)).

(** [self._logger.<level>(msg)] *)
Definition logger (l : level) (msg : string) : M state unit :=
  modify (fun s =>
    (fst s, {| requests := requests (snd s); tmp_files := tmp_files (snd s);
               log := log (snd s) ++ [(l, msg)] |})).

(** A location is asked of the network. *)
Definition request (url : option string) : M state unit :=
  modify (fun s =>
    (fst s, {| requests := requests (snd s) ++ [url];
               tmp_files := tmp_files (snd s); log := log (snd s) |})).

(** A temporary file comes to exist. *)
Definition create_tmp (filename : string) : M state unit :=
  modify (fun s =>
    (fst s, {| requests := requests (snd s);
               tmp_files := filename :: tmp_files (snd s);
               log := log (snd s) |})).

(** [os.unlink(filename)] *)
Definition os_unlink (filename : string) : M state unit :=
  modify (fun s =>
    (fst s, {| requests := requests (snd s);
               tmp_files :=
                 filter (fun f => negb (String.eqb f filename))
                        (tmp_files (snd s));
               log := log (snd s) |})).

(** [str.format] of a value that may be [None]. *)
Definition fmt (o : option string) : string :=
  match o with Some v => v | None => "None" end.

(** [self._temporary_retrieve(url)], with what it does to the world. *)
Definition temporary_retrieve (E : Env) (url : string) : M state string :=
  request (Some url) ;;
  local_filename <- lift (_temporary_retrieve E url) ;;
  create_tmp local_filename ;;
  ret local_filename.

(** [self._file_retrieve(url, path)], with what it does to the world. *)
Definition file_retrieve (E : Env) (url : option string) (path : string)
    : M state string :=
  request url ;;
  lift (_file_retrieve E url path).

(** [self._parser.parse(filename)] *)
Definition parser_parse (E : Env) (filename : string) : M state unit :=
  find <- lift (parse E filename) ;;
  set_self (set_parser find).

(** [_get_version()] *)
Definition _get_version : M state (option string) :=
  p <- self ;;
  match _parser p "Program_Info/Program_Version" with
  | Some item =>
      let version := text item in
      logger INFO ("Program version :'" ++ fmt version ++ "'") ;;
      ret version
  | None =>
      logger WARNING "Unknown program version" ;;
      ret None
  end.

(** [_get_release_date()] *)
Definition _get_release_date (E : Env) : M state (option string) :=
  p <- self ;;
  match _parser p "Program_Info/Program_Release_Year" with
  | Some item =>
      year <- lift (int E (text item)) ;;
      match _parser p "Program_Info/Program_Release_Month" with
      | Some item =>
          month <- lift (int E (text item)) ;;
          match _parser p "Program_Info/Program_Release_Day" with
          | Some item =>
              day <- lift (int E (text item)) ;;
              release_date <- lift (date_isoformat E year month day) ;;
              logger INFO ("Release date :'" ++ release_date ++ "'") ;;
              ret (Some release_date)
          | None =>
              logger WARNING "Unknown release day" ;;
              ret None
          end
      | None =>
          logger WARNING "Unknown release month" ;;
          ret None
      end
  | None =>
      logger WARNING "Unknown release year" ;;
      ret None
  end.

(** [_get_release_note()] *)
Definition _get_release_note : M state string :=
  let release_note := "http://www.makemkv.com/download/" in
  logger INFO ("Release note :'" ++ release_note ++ "'") ;;
  ret release_note.

(** [_get_location()] *)
Definition _get_location : M state (option string) :=
  p <- self ;;
  match _parser p "Web_Info/Download_URLs/Primary_Download_URL" with
  | Some item =>
      let location := text item in
      logger INFO ("Download url (for windows version) :'" ++ fmt location ++ "'") ;;
      ret location
  | None =>
      logger WARNING "Unknown Download url" ;;
      ret None
  end.

(** [check_update()] *)
Definition check_update (E : Env) : M state unit :=
  p <- self ;;
  logger INFO ("Checks if a new version is available. Current version is '"
                 ++ version p ++ "'") ;;
  local_filename <- temporary_retrieve E (_catalog_location p) ;;
  logger DEBUG ("Catalog downloaded: '" ++ local_filename ++ "'") ;;
  (match update p with
   | Some _ => set_self (set_update None)
   | None => ret tt
   end) ;;
  parser_parse E local_filename ;;
  found <- _get_version ;;
  (match found with
   | Some new_version =>
       p <- self ;;
       remote <- _get_version ;;
       match remote with
       | Some remote_version =>
           if semver_lt E (version p) remote_version then
             let prod := set_version new_version (__init__ E) in
             date <- _get_release_date E ;;
             let prod := set_published date prod in
             url <- _get_location ;;
             let prod := set_location url prod in
             set_self (set_update (Some prod)) ;;
             logger INFO ("A new version exist (" ++ version prod
                            ++ ") published on " ++ fmt (published prod)
                            ++ ".")
           else
             logger INFO "No new version available."
       | None => raise (TypeError "SemVer")
       end
   | None => ret tt
   end) ;;
  os_unlink local_filename.

(** An assignment to an attribute of [prod], the object [self.update]
    holds: the product sees it through [update]. *)
Definition set_prod (f : Product -> Product) : M state unit :=
  set_self (fun p =>
    match update p with
    | Some prod => set_update (Some (f prod)) p
    | None => p
    end).

(** [fetch_update(path)] *)
Definition fetch_update (E : Env) (path : string) : M state unit :=
  logger INFO "Downloads the latest version of the installer." ;;
  p <- self ;;
  match update p with
  | Some prod =>
      local_filename <- file_retrieve E (location prod) path ;;
      set_prod (set_target "") ;;
      release_note <- _get_release_note ;;
      set_prod (set_release_note release_note) ;;
      set_prod (set_std_inst_args "") ;;
      set_prod (set_silent_inst_args "/S") ;;
      set_prod (set_product_code "") ;;
      p <- self ;;
      match update p with
      | Some prod =>
          prod <- lift (_rename_installer E prod local_filename) ;;
          set_self (set_update (Some prod)) ;;
          set_self (load E (dump E prod)) ;;
          p <- self ;;
          logger INFO ("Update downloaded in '" ++ installer p ++ "'")
      | None => raise (TypeError "update")
      end
  | None =>
      logger INFO "No new version available."
  end.
End MakeMKV.

(** ** cots/dummy.py *)

Module Dummy.
(** The attribute of a dummy product that [is_update] reads. *)
Record Product : Type := { version : string }.

(** [is_update(product)], over the Version Ordering [semver_lt] of
    [MakeMKV.Env]. *)
Definition is_update (semver_lt : string -> string -> bool)
    (self product : Product) : bool :=
  if semver_lt (version self) (version product) then true else false.
End Dummy.

(** ** A small installation, to run the program on *)

Module Example.
(** The catalog section of a product, from its fields. *)
Definition record (name version installer update_available : string)
    : ConfigParser.SectionProxy :=
  [("name", name); ("version", version); ("published", "2024-03-01");
   ("target", "unified"); ("release_note", "http://www.example.com/notes");
   ("installer", installer); ("std_inst_args", "");
   ("silent_inst_args", "/S"); ("update_available", update_available);
   ("update_version", ""); ("update_published", "")].

(** A product object as a plugin module creates it. *)
Definition fresh (name : string) : Core.BaseProduct :=
  {| Core.id := ""; Core.name := name; Core.version := "";
     Core.published := ""; Core.target := ""; Core.release_note := "";
     Core.installer := ""; Core.std_inst_args := "";
     Core.silent_inst_arg := ""; Core.update_available := false;
     Core.update_version := ""; Core.update_published := "" |}.

(** A plugin whose check finds version 1.2.0 and whose fetch installs
    it. *)
Definition sound_module (name : string) : Core.module :=
  {| Core.Product := fresh name;
     Core.check_update := fun p =>
       Ok (Core.set_update_published "2024-03-01"
             (Core.set_update_version "1.2.0"
                (Core.set_update_available true p)));
     Core.fetch_update := fun p path =>
       Ok (Core.set_update_available false
             (Core.set_installer (path ++ "/setup-1.2.0.exe")
                (Core.set_version "1.2.0" p))) |}.

(** A plugin whose check cannot reach the remote metadata. *)
Definition failing_module (name : string) : Core.module :=
  {| Core.Product := fresh name;
     Core.check_update := fun _ => Raise (OSError "metadata unavailable");
     Core.fetch_update := fun p _ => Ok p |}.

Definition env : AppDownload.Env :=
  {| AppDownload.import_module := fun mod_name =>
       if String.eqb mod_name "cots.alpha" then Ok (failing_module "Alpha")
       else if String.eqb mod_name "cots.beta" then Ok (sound_module "Beta")
       else Raise (ImportError mod_name);
     (* the runs below start without a catalog file: nothing is parsed *)
     AppDownload.parse_ini := fun _ => Ok ConfigParser.empty;
     AppDownload.abspath := fun p => p;
     AppDownload.now_isoformat := fun _ => "2024-03-02T10:00:00" |}.

(** Two enabled products of the same set, whose components are two. *)
Definition config : ConfigParser.t :=
  [("core", [("store", "/srv/store")]);
   ("sets", [("home", "pc1, pc2")]);
   ("applications", [("alpha", "yes"); ("beta", "yes")]);
   ("alpha", [("module", "cots.alpha"); ("set", "home")]);
   ("beta", [("module", "cots.beta"); ("set", "home")])].

(** The application object on an empty disk. *)
Definition app0 : AppDownload.state := AppDownload.__init__ config [].

(** A catalog with both products on record. *)
Definition catalog : ConfigParser.t :=
  [("alpha", record "Alpha" "1.0.0" "alpha-1.0.0.exe" "no");
   ("beta", record "Beta" "2.1.0" "beta-2.1.0.exe" "no")].


(** The application object once the configuration is loaded, holding a
    given catalog. *)
Definition loaded (catalog : ConfigParser.t) : AppDownload.state :=
  AppDownload.set_catalog catalog
    (snd (AppDownload._load_config env app0)).


(** A disk that holds a catalog file. *)
Definition disk : Dict.t (list string) :=
  [("/srv/store/catalog.ini", ["# header"; "[alpha]"; "name = Alpha"])].


(** The plugin side: a product object with nothing known but its name. *)
Definition blank : MakeMKV.Product :=
  {| MakeMKV.name := ""; MakeMKV.version := "1.0.0";
     MakeMKV.published := None; MakeMKV.location := None;
     MakeMKV.target := ""; MakeMKV.release_note := "";
     MakeMKV.installer := ""; MakeMKV.std_inst_args := "";
     MakeMKV.silent_inst_args := ""; MakeMKV.product_code := "";
     MakeMKV.update := None; MakeMKV._catalog_location := "";
     MakeMKV._parser := fun _ => None |}.

(** A PAD file that announces version 1.2.0, released on 2024-03-01. *)
Definition pad_file (path : string) : option MakeMKV.Element :=
  if String.eqb path "Program_Info/Program_Version"
  then Some {| MakeMKV.text := Some "1.2.0" |}
  else if String.eqb path "Program_Info/Program_Release_Year"
  then Some {| MakeMKV.text := Some "2024" |}
  else if String.eqb path "Program_Info/Program_Release_Month"
  then Some {| MakeMKV.text := Some "03" |}
  else if String.eqb path "Program_Info/Program_Release_Day"
  then Some {| MakeMKV.text := Some "01" |}
  else if String.eqb path "Web_Info/Download_URLs/Primary_Download_URL"
  then Some {| MakeMKV.text := Some "http://www.makemkv.com/download/Setup_MakeMKV_v1.2.0.exe" |}
  else None.

(** [int] on a string of decimal digits. *)
Fixpoint digits (acc : Z) (s : string) : result Z :=
  match s with
  | EmptyString => Ok acc
  | String c s' =>
      let n := nat_of_ascii c in
      if Nat.leb 48 n && Nat.leb n 57
      then digits (10 * acc + Z.of_nat (n - 48)) s'
      else Raise (ValueError "invalid literal for int()")
  end.

Definition int (text : option string) : result Z :=
  match text with
  | Some EmptyString => Raise (ValueError "invalid literal for int()")
  | Some s => digits 0 s
  | None => Raise (TypeError "int() argument must be a string")
  end.

(** An environment for the plugin, from what the parser and the
    retrieval of the installer return. *)
Definition mkv_env
    (parsed : result (string -> option MakeMKV.Element))
    (fetched : result string) : MakeMKV.Env :=
  {| MakeMKV.semver_lt := String.ltb;
     MakeMKV.BaseProduct__init__ := blank;
     MakeMKV.PadParser := fun _ => None;
     MakeMKV._temporary_retrieve := fun _ => Ok "/tmp/tmp8k2makemkv.xml";
     MakeMKV._file_retrieve := fun _ _ => fetched;
     MakeMKV.parse := fun _ => parsed;
     MakeMKV.int := int;
     MakeMKV.date_isoformat := fun y m d =>
       if (Z.eqb y 2024 && Z.eqb m 3 && Z.eqb d 1)%bool then Ok "2024-03-01"
       else Raise (ValueError "day is out of range for month");
     MakeMKV._rename_installer := fun p _ => Ok p;
     MakeMKV.Attributes := MakeMKV.Product;
     MakeMKV.dump := fun p => p;
     MakeMKV.load := fun a p =>
       MakeMKV.set_update None
         (MakeMKV.set_published (MakeMKV.published a)
            (MakeMKV.set_version (MakeMKV.version a) p)) |}.

(** The product as installed, version 1.0.0, nothing pending. *)
Definition makemkv (E : MakeMKV.Env) : MakeMKV.Product :=
  MakeMKV.set_version "1.0.0" (MakeMKV.__init__ E).

(** The same with the update to 1.2.0 pending. *)
Definition makemkv_pending (E : MakeMKV.Env) : MakeMKV.Product :=
  MakeMKV.set_update
    (Some (MakeMKV.set_location (Some "http://www.makemkv.com/download/Setup_MakeMKV_v1.2.0.exe")
             (MakeMKV.set_version "1.2.0" (MakeMKV.__init__ E))))
    (makemkv E).

Definition world0 : MakeMKV.World :=
  {| MakeMKV.requests := []; MakeMKV.tmp_files := []; MakeMKV.log := [] |}.
End Example.

(** ** More cases to run the program on *)

Module Scenario.
(** The installation of [Example] with its first product not enabled. *)
Definition config_beta_only : ConfigParser.t :=
  [("core", [("store", "/srv/store")]);
   ("sets", [("home", "pc1, pc2")]);
   ("applications", [("alpha", "no"); ("beta", "yes")]);
   ("alpha", [("module", "cots.alpha"); ("set", "home")]);
   ("beta", [("module", "cots.beta"); ("set", "home")])].

Definition app_beta_only : AppDownload.state :=
  AppDownload.__init__ config_beta_only [].

(** That object once the configuration is loaded, holding the catalog of
    [Example]. *)
Definition loaded_beta_only : AppDownload.state :=
  AppDownload.set_catalog Example.catalog
    (snd (AppDownload._load_config Example.env app_beta_only)).

(** A configuration with no core section. *)
Definition config_no_core : ConfigParser.t :=
  [("sets", [("home", "pc1, pc2")]);
   ("applications", [("alpha", "yes")]);
   ("alpha", [("module", "cots.alpha"); ("set", "home")])].

Definition app_no_core : AppDownload.state :=
  AppDownload.__init__ config_no_core [].

(** A record a hand has cut down to two keys. *)
Definition partial_record : ConfigParser.SectionProxy :=
  [("version", "2.0.0"); ("update_available", "yes")].


(** A PAD file whose release year is no number. *)
Definition pad_file_bad_year (path : string) : option MakeMKV.Element :=
  if String.eqb path "Program_Info/Program_Release_Year"
  then Some {| MakeMKV.text := Some "MMXXIV" |}
  else Example.pad_file path.

(** An environment for the plugin, from what the two retrievals, the
    parser and the renaming of the installer return. *)
Definition mkv_env (retrieved : result string)
    (parsed : result (string -> option MakeMKV.Element))
    (fetched : result string) (renamed : result unit) : MakeMKV.Env :=
  let E := Example.mkv_env parsed fetched in
  {| MakeMKV.semver_lt := MakeMKV.semver_lt E;
     MakeMKV.BaseProduct__init__ := MakeMKV.BaseProduct__init__ E;
     MakeMKV.PadParser := MakeMKV.PadParser E;
     MakeMKV._temporary_retrieve := fun _ => retrieved;
     MakeMKV._file_retrieve := MakeMKV._file_retrieve E;
     MakeMKV.parse := MakeMKV.parse E;
     MakeMKV.int := MakeMKV.int E;
     MakeMKV.date_isoformat := MakeMKV.date_isoformat E;
     MakeMKV._rename_installer := fun p _ =>
       match renamed with Ok _ => Ok p | Raise e => Raise e end;
     MakeMKV.Attributes := MakeMKV.Product;
     MakeMKV.dump := fun p => p;
     MakeMKV.load := fun a p =>
       MakeMKV.set_update None
         (MakeMKV.set_published (MakeMKV.published a)
            (MakeMKV.set_version (MakeMKV.version a) p)) |}.
End Scenario.

(** * Properties *)

(** ** Dictionaries *)

Section DictFacts.
Context {V : Type}.
Implicit Types (d : Dict.t V) (k : string) (v : V).

Lemma get_set_same d k v : Dict.get k (Dict.set k v d) = Some v.
Proof.
  induction d as [|[k' v'] d IH]; simpl.
  - now rewrite String.eqb_refl.
  - destruct (String.eqb k k') eqn:Hk; simpl; rewrite ?String.eqb_refl, ?Hk; auto.
Qed.

Lemma get_set_other d k k' v :
  k <> k' -> Dict.get k' (Dict.set k v d) = Dict.get k' d.
Proof.
  intros Hne. apply String.eqb_neq in Hne.
  assert (Hne' : String.eqb k' k = false) by now rewrite String.eqb_sym.
  induction d as [|[k0 v0] d IH]; simpl.
  - now rewrite Hne'.
  - destruct (String.eqb k k0) eqn:Hk; simpl.
    + apply String.eqb_eq in Hk; subst k0. now rewrite Hne'.
    + now rewrite IH.
Qed.


Lemma get_remove_other d k k' :
  k <> k' -> Dict.get k' (Dict.remove k d) = Dict.get k' d.
Proof.
  intros Hne. apply String.eqb_neq in Hne.
  induction d as [|[k0 v0] d IH]; simpl; auto.
  destruct (String.eqb k k0) eqn:Hk; simpl.
  - apply String.eqb_eq in Hk; subst k0.
    rewrite String.eqb_sym, Hne. exact IH.
  - now rewrite IH.
Qed.

Lemma contains_get d k :
  Dict.contains k d = true <-> exists v, Dict.get k d = Some v.
Proof.
  unfold Dict.contains. destruct (Dict.get k d); split; eauto;
    try discriminate.
  intros [v Hv]; discriminate.
Qed.
End DictFacts.

(** ** The catalog store *)

Section Catalog.
Import AppDownload.

Lemma getitem_setitem (name key value : string) (c : ConfigParser.t)
    (s : ConfigParser.SectionProxy) :
  Dict.get name c = Some s ->
  Dict.get name (ConfigParser.setitem name key value c)
  = Some (Dict.set (ConfigParser.optionxform key) value s).
Proof.
  intros H. unfold ConfigParser.setitem. rewrite H. apply get_set_same.
Qed.

Lemma getitem_setitem_other (name name' key value : string)
    (c : ConfigParser.t) :
  name <> name' ->
  Dict.get name' (ConfigParser.setitem name key value c) = Dict.get name' c.
Proof.
  intros H. unfold ConfigParser.setitem.
  destruct (Dict.get name c); auto using get_set_other.
Qed.


(** One more key written into the section under construction. *)
Ltac written H :=
  match goal with
  | |- context [ConfigParser.setitem ?n ?k ?v ?c] =>
      match type of H with
      | Dict.get n c = Some ?sec =>
          let H' := fresh in
          pose proof (getitem_setitem n k v c sec H) as H';
          clear H; rename H' into H
      end
  end.


Lemma _dump_product_other (s s' : string) (p : Core.BaseProduct)
    (catalog : ConfigParser.t) :
  s <> s' ->
  Dict.get s' (_dump_product s p catalog) = Dict.get s' catalog.
Proof.
  intros Hne. cbv beta zeta delta [_dump_product].
  destruct (Core.update_available p);
    rewrite !getitem_setitem_other by exact Hne;
    destruct (negb (ConfigParser.has_section s catalog));
    unfold ConfigParser.add_section, ConfigParser.remove_section;
    rewrite ?get_set_other, ?get_remove_other by exact Hne; reflexivity.
Qed.








End Catalog.

(** ** The catalog file *)

Section CatalogFile.
Import AppDownload.
Variable E : Env.

Lemma for_each_file_write (path : string) (texts : list string) (s : state) :
  SE.for_each (file_write path) texts s
  = (Ok tt, set_fs (apply_ops path (map Append texts) (fs s)) s).
Proof.
  revert s. induction texts as [|text texts IH]; intros s.
  - destruct s; reflexivity.
  - cbn [SE.for_each map]. unfold SE.bind at 1.
    unfold file_write at 1, SE.modify. rewrite IH. reflexivity.
Qed.


Lemma apply_appends (path : string) (texts written : list string)
    (disk : Dict.t (list string)) :
  Dict.get path disk = Some written ->
  Dict.get path (apply_ops path (map Append texts) disk)
  = Some (written ++ texts).
Proof.
  revert written disk.
  induction texts as [|text texts IH]; intros written disk H; cbn.
  - now rewrite app_nil_r.
  - unfold apply_ops in IH. rewrite H.
    rewrite (IH (written ++ [text])) by apply get_set_same.
    now rewrite <- app_assoc.
Qed.


End CatalogFile.

(** ** The MakeMKV plugin *)

Section Plugin.
Import MakeMKV.
Variable E : Env.

#[local] Arguments _get_release_date : simpl never.
#[local] Arguments _get_location : simpl never.

(** Running the plugin's code by computation, up to the calls into the
    environment. *)
Ltac run_plugin :=
  cbv beta iota zeta delta
    [check_update fetch_update SE.bind SE.get SE.ret SE.lift SE.raise
     SE.modify self set_self set_prod logger request create_tmp os_unlink
     temporary_retrieve file_retrieve parser_parse _get_version
     _get_release_note fst snd].

(** C6.  With no update pending, [fetch_update] asks nothing of the
    network and leaves the product as it is; it returns without raising,
    having logged that there is no new version. *)
Theorem fetch_update_nothing_pending (p : Product) (w : World)
    (path : string) :
  update p = None ->
  fetch_update E path (p, w)
  = (Ok tt,
     (p, {| requests := requests w;
            tmp_files := tmp_files w;
            log := log w
                   ++ [(INFO, "Downloads the latest version of the installer.");
                       (INFO, "No new version available.")] |})).
Proof.
  intros Hnone. run_plugin. rewrite Hnone.
  cbn. now rewrite <- app_assoc.
Qed.

(** C4.  When the retrieval of the installer fails, [fetch_update] raises
    the error of the retrieval and the product object is the one it was
    before the call: every attribute of the installed version, and the
    pending update with every attribute of its own. *)
Theorem fetch_update_failure_keeps_product (p cand : Product) (w : World)
    (path : string) (e : exn) :
  update p = Some cand ->
  _file_retrieve E (location cand) path = Raise e ->
  exists p' w',
    fetch_update E path (p, w) = (Raise e, (p', w'))
    /\ p' = p
    /\ update p' = Some cand
    /\ tmp_files w' = tmp_files w.
Proof.
  intros Hpending Hfail. exists p. eexists. run_plugin.
  rewrite Hpending. cbv beta iota. rewrite Hfail.
  split; [reflexivity|]. split; [reflexivity|]. split; reflexivity.
Qed.

Lemma _get_location_returns (p : Product) (w : World) :
  exists w',
    _get_location (p, w)
    = (Ok match _parser p "Web_Info/Download_URLs/Primary_Download_URL" with
          | Some item => text item
          | None => None
          end, (p, w'))
    /\ tmp_files w' = tmp_files w.
Proof.
  unfold _get_location. run_plugin.
  destruct (_parser p _); eexists; split; reflexivity.
Qed.

(** [_get_release_date] only reads the parsed file and writes to the log. *)
Lemma _get_release_date_frame (q : Product) (w1 : World) :
  exists w2,
    snd (_get_release_date E (q, w1)) = (q, w2)
    /\ tmp_files w2 = tmp_files w1.
Proof.
  unfold _get_release_date. run_plugin.
  repeat (cbv beta iota;
    match goal with
    | |- context [_parser q ?k] => destruct (_parser q k)
    | |- context [int E ?t] => destruct (int E t)
    | |- context [date_isoformat E ?y ?m ?d] =>
        destruct (date_isoformat E y m d)
    end);
    cbv beta iota; eexists; split; reflexivity.
Qed.

(** What [check_update] does when nothing raises. *)
Lemma check_update_returns (p : Product) (w : World)
    (local_filename : string) (find : string -> option Element)
    (item : Element) (new_version : string) :
  _temporary_retrieve E (_catalog_location p) = Ok local_filename ->
  parse E local_filename = Ok find ->
  find "Program_Info/Program_Version" = Some item ->
  text item = Some new_version ->
  (semver_lt E (version p) new_version = true ->
   forall q w1, _parser q = find ->
     exists date, fst (_get_release_date E (q, w1)) = Ok date) ->
  exists p' w',
    check_update E (p, w) = (Ok tt, (p', w'))
    /\ version p' = version p
    /\ ((exists prod, update p' = Some prod)
        <-> semver_lt E (version p) new_version = true)
    /\ (forall prod, update p' = Some prod ->
          version prod = new_version
          /\ semver_lt E (version p') (version prod) = true)
    /\ tmp_files w'
       = filter (fun f => negb (String.eqb f local_filename))
           (local_filename :: tmp_files w).
Proof.
  intros Hretr Hparse Hitem Htext Hdate.
  run_plugin. rewrite Hretr. cbv beta iota.
  destruct (semver_lt E (version p) new_version) eqn:Hlt.
  - (* strictly newer: the update is recorded *)
    destruct (update p) eqn:Hup; cbv beta iota; rewrite Hparse;
      cbn; rewrite Hitem, Htext; cbn; rewrite Hitem, Htext, Hlt;
      match goal with
      | |- context [_get_release_date E (?q, ?w1)] =>
          destruct (Hdate eq_refl q w1 eq_refl) as (date & Hd);
          destruct (_get_release_date_frame q w1) as (w2 & Hs & Ht2);
          destruct (_get_release_date E (q, w1)) as [r st];
          cbn [fst snd] in Hd, Hs; subst r st
      end;
      cbv beta iota;
      match goal with
      | |- context [_get_location (?q, ?w1)] =>
          destruct (_get_location_returns q w1) as (w3 & -> & Ht3)
      end;
      cbv beta iota; eexists; eexists;
      (split; [reflexivity|]); cbn;
      (split; [reflexivity|]);
      (split; [split; [reflexivity | intros _; eexists; reflexivity]|]);
      (split; [|rewrite Ht3, Ht2; reflexivity]);
      intros prod Hprod; injection Hprod as <-; cbn; now split.
  - (* not newer: nothing is recorded *)
    destruct (update p) eqn:Hup; cbv beta iota; rewrite Hparse;
      cbn; rewrite Hitem, Htext; cbn; rewrite Hitem, Htext, Hlt;
      cbv beta iota; eexists; eexists;
      (split; [reflexivity|]); cbn; rewrite ?Hup;
      (split; [reflexivity|]);
      (split; [split; [intros [prod Hprod]; discriminate Hprod
                      | intros Habs; discriminate Habs]|]);
      (split; [|reflexivity]);
      intros prod Hprod; discriminate Hprod.
Qed.

(** On that path the temporary file is released. *)
Lemma check_update_releases_on_return (p : Product) (w : World)
    (local_filename : string) (find : string -> option Element)
    (item : Element) (new_version : string) :
  _temporary_retrieve E (_catalog_location p) = Ok local_filename ->
  parse E local_filename = Ok find ->
  find "Program_Info/Program_Version" = Some item ->
  text item = Some new_version ->
  (semver_lt E (version p) new_version = true ->
   forall q w1, _parser q = find ->
     exists date, fst (_get_release_date E (q, w1)) = Ok date) ->
  exists p' w',
    check_update E (p, w) = (Ok tt, (p', w'))
    /\ ~ In local_filename (tmp_files w').
Proof.
  intros H1 H2 H3 H4 H5.
  destruct (check_update_returns p w _ _ _ _ H1 H2 H3 H4 H5)
    as (p' & w' & Hrun & _ & _ & _ & Htmp).
  exists p', w'. split; [exact Hrun|].
  rewrite Htmp. intros Hin. apply filter_In in Hin.
  destruct Hin as [_ Hin]. now rewrite String.eqb_refl in Hin.
Qed.

(** When the parser raises, [check_update] raises with it and the
    temporary file is still there. *)
Lemma check_update_parser_failure (p : Product) (w : World)
    (local_filename : string) (e : exn) :
  _temporary_retrieve E (_catalog_location p) = Ok local_filename ->
  parse E local_filename = Raise e ->
  exists p' w',
    check_update E (p, w) = (Raise e, (p', w'))
    /\ In local_filename (tmp_files w').
Proof.
  intros Hretr Hparse. run_plugin. rewrite Hretr. cbv beta iota.
  destruct (update p); cbv beta iota; rewrite Hparse; cbv beta iota;
    eexists; eexists; (split; [reflexivity|]); cbn; now left.
Qed.

End Plugin.

(** [is_update] of the dummy plugin answers whether the version of the
    product it is given is strictly greater than the version of the
    instance. *)
Lemma is_update_strictly_greater (semver_lt : string -> string -> bool)
    (self product : Dummy.Product) :
  Dummy.is_update semver_lt self product
  = semver_lt (Dummy.version self) (Dummy.version product).
Proof. unfold Dummy.is_update. now destruct (semver_lt _ _). Qed.

Section PluginRuns.
Import MakeMKV.

Lemma fetch_update_nothing_pending_witness :
  let E := Example.mkv_env (Ok Example.pad_file) (Ok "/srv/store/makemkv/setup.exe") in
  update (Example.makemkv E) = None
  /\ fetch_update E "/srv/store/makemkv" (Example.makemkv E, Example.world0)
     = (Ok tt,
        (Example.makemkv E,
         {| requests := [];
            tmp_files := [];
            log := [(INFO, "Downloads the latest version of the installer.");
                    (INFO, "No new version available.")] |})).
Proof.
  cbv zeta. split; [reflexivity|].
  apply (fetch_update_nothing_pending
           (Example.mkv_env (Ok Example.pad_file) (Ok "/srv/store/makemkv/setup.exe"))
           (Example.makemkv _) Example.world0 "/srv/store/makemkv").
  reflexivity.
Defined.

Lemma fetch_update_failure_keeps_product_witness :
  let E := Example.mkv_env (Ok Example.pad_file) (Raise (OSError "connection reset")) in
  let p := Example.makemkv_pending E in
  exists cand p' w',
    update p = Some cand
    /\ _file_retrieve E (location cand) "/srv/store/makemkv"
       = Raise (OSError "connection reset")
    /\ fetch_update E "/srv/store/makemkv" (p, Example.world0)
       = (Raise (OSError "connection reset"), (p', w'))
    /\ p' = p
    /\ update p' = Some cand
    /\ tmp_files w' = tmp_files Example.world0.
Proof.
  cbv zeta.
  set (E := Example.mkv_env (Ok Example.pad_file) (Raise (OSError "connection reset"))).
  destruct (fetch_update_failure_keeps_product E (Example.makemkv_pending E)
              (set_location (Some "http://www.makemkv.com/download/Setup_MakeMKV_v1.2.0.exe")
                 (set_version "1.2.0" (__init__ E)))
              Example.world0 "/srv/store/makemkv" (OSError "connection reset")
              eq_refl eq_refl) as (p' & w' & Hrun & Hsame & Hpending & Htmp).
  eexists. exists p', w'. split; [reflexivity|].
  split; [reflexivity|]. split; [exact Hrun|].
  split; [exact Hsame|]. split; [exact Hpending|exact Htmp].
Defined.

(** The release date of the example PAD file can be read, whatever else
    the product and the world hold. *)
Lemma pad_file_release_date (E : Env) (q : Product) (w1 : World) :
  int E = Example.int ->
  date_isoformat E 2024%Z 3%Z 1%Z = Ok "2024-03-01" ->
  _parser q = Example.pad_file ->
  exists date, fst (_get_release_date E (q, w1)) = Ok date.
Proof.
  intros Hint Hdate Hq.
  cbv beta iota zeta delta [_get_release_date SE.bind SE.get SE.ret SE.lift
    SE.modify self logger fst snd].
  rewrite Hq, Hint.
  change (Example.pad_file "Program_Info/Program_Release_Year")
    with (Some {| text := Some "2024" |}).
  change (Example.pad_file "Program_Info/Program_Release_Month")
    with (Some {| text := Some "03" |}).
  change (Example.pad_file "Program_Info/Program_Release_Day")
    with (Some {| text := Some "01" |}).
  cbv beta iota delta [text].
  change (Example.int (Some "2024")) with (Ok 2024%Z).
  change (Example.int (Some "03")) with (Ok 3%Z).
  change (Example.int (Some "01")) with (Ok 1%Z).
  cbv beta iota. rewrite Hdate. eexists. reflexivity.
Defined.


(** C7, on the code.  The remote file is retrieved into a temporary file
    and the parser rejects it: [check_update] raises the error of the
    parser and the temporary file is still on disk. *)
Theorem check_update_leaves_temporary_file :
  let E := Example.mkv_env (Raise (ParseError "not well-formed (invalid token)"))
             (Ok "/srv/store/makemkv/setup.exe") in
  let out := check_update E (Example.makemkv E, Example.world0) in
  fst out = Raise (ParseError "not well-formed (invalid token)")
  /\ requests (snd (snd out)) = [Some "http://www.makemkv.com/makemkv.xml"]
  /\ tmp_files (snd (snd out)) = ["/tmp/tmp8k2makemkv.xml"].
Proof.
  cbv zeta. split; [reflexivity|]. split; reflexivity.
Qed.
End PluginRuns.

(** ** Computations *)

Section Computations.
Context {S : Type}.
Import SE.



Lemma bind_inv {A B : Type} (m : M S A) (k : A -> M S B) (s s' : S)
    (r : result B) :
  bind m k s = (r, s') ->
  (exists a s1, m s = (Ok a, s1) /\ k a s1 = (r, s'))
  \/ (exists e, m s = (Raise e, s') /\ r = Raise e).
Proof.
  unfold bind. destruct (m s) as [[a|e] s1]; intros H.
  - left. eauto.
  - right. injection H as <- <-. eauto.
Qed.


Section Keeps.
Context {X : Type} (f : S -> X).

Lemma keeps_ret {A : Type} (a : A) : keeps f (ret a).
Proof. intros s r s' H. injection H as _ <-. reflexivity. Qed.

Lemma keeps_raise {A : Type} (e : exn) : keeps f (@raise S A e).
Proof. intros s r s' H. injection H as _ <-. reflexivity. Qed.

Lemma keeps_lift {A : Type} (x : result A) : keeps f (lift x).
Proof. intros s r s' H. injection H as _ <-. reflexivity. Qed.

Lemma keeps_get : keeps f get.
Proof. intros s r s' H. injection H as _ <-. reflexivity. Qed.

Lemma keeps_modify (g : S -> S) :
  (forall s, f (g s) = f s) -> keeps f (modify g).
Proof. intros Hg s r s' H. injection H as _ <-. apply Hg. Qed.

Lemma keeps_bind {A B : Type} (m : M S A) (k : A -> M S B) :
  keeps f m -> (forall a, keeps f (k a)) -> keeps f (bind m k).
Proof.
  intros Hm Hk s r s' H. apply bind_inv in H.
  destruct H as [(a & s1 & H1 & H2)|(e & H1 & _)].
  - rewrite (Hk a _ _ _ H2). exact (Hm _ _ _ H1).
  - exact (Hm _ _ _ H1).
Qed.

Lemma keeps_for_each {A : Type} (body : A -> M S unit) (l : list A) :
  (forall x, keeps f (body x)) -> keeps f (for_each body l).
Proof.
  intros Hbody. induction l as [|x l IH]; cbn [for_each].
  - apply keeps_ret.
  - apply keeps_bind; auto.
Qed.
End Keeps.
End Computations.

(** Taking a computation apart, to show what it keeps. *)
Ltac keeps_step :=
  match goal with
  | |- SE.keeps _ (SE.bind _ _) => apply keeps_bind; [|intros ?]
  | |- SE.keeps _ (SE.ret _) => apply keeps_ret
  | |- SE.keeps _ (SE.raise _) => apply keeps_raise
  | |- SE.keeps _ (SE.lift _) => apply keeps_lift
  | |- SE.keeps _ SE.get => apply keeps_get
  | |- SE.keeps _ (SE.modify _) =>
      apply keeps_modify; intros ?; reflexivity
  | |- SE.keeps _ (SE.for_each _ _) => apply keeps_for_each; intros ?
  | |- SE.keeps _ (if ?b then _ else _) => destruct b
  | |- SE.keeps _ (match ?x with _ => _ end) => destruct x
  end.

Ltac keeps_all := repeat keeps_step.

(** ** The orchestrator *)

Section Orchestrator.
Import AppDownload.
Variable E : Env.






Lemma _read_catalog_keeps_config : SE.keeps _config (_read_catalog E).
Proof. unfold _read_catalog. keeps_all. Qed.



Lemma _check_update_app_keeps_config (app_id : string) :
  SE.keeps _config (_check_update_app E app_id).
Proof. unfold _check_update_app, load_product, dump_product. keeps_all. Qed.

Lemma _check_update_app_keeps_checked_config (app_id : string) :
  SE.keeps _checked_config (_check_update_app E app_id).
Proof. unfold _check_update_app, load_product, dump_product. keeps_all. Qed.




End Orchestrator.

Section Runs.
Import AppDownload.


End Runs.

(** ** The applist files *)

Section ExportPass.
Import AppDownload.
Variable E : Env.







End ExportPass.

Section ExportRuns.
Import AppDownload.


End ExportRuns.

(** ** Strings and paths *)

Section Paths.
Import AppDownload.

Lemma append_length (a b : string) :
  String.length (a ++ b) = String.length a + String.length b.
Proof. induction a as [|x a IH]; cbn; auto. Qed.

Lemma append_inj_l (a b c : string) : (a ++ b = a ++ c)%string -> b = c.
Proof.
  induction a as [|x a IH]; cbn; intros H; auto.
  injection H as H. auto.
Qed.

Lemma append_inj_r (c a b : string) : (a ++ c = b ++ c)%string -> a = b.
Proof.
  revert b. induction a as [|x a IH]; intros [|y b] H; cbn in H.
  - reflexivity.
  - apply (f_equal String.length) in H. cbn in H.
    rewrite append_length in H. lia.
  - apply (f_equal String.length) in H. cbn in H.
    rewrite append_length in H. lia.
  - injection H as -> H. f_equal. auto.
Qed.

(** Two components have two files. *)
Lemma applist_filename_inj (store_path c c' : string) :
  applist_filename store_path c = applist_filename store_path c' -> c = c'.
Proof.
  unfold applist_filename, os_path_join.
  change (String.prefix "/" (_APPLIST_PREFIX ++ c ++ _APPLIST_EXT)) with false.
  change (String.prefix "/" (_APPLIST_PREFIX ++ c' ++ _APPLIST_EXT)) with false.
  cbv beta iota.
  assert (Hend : (_APPLIST_PREFIX ++ c ++ _APPLIST_EXT
                  = _APPLIST_PREFIX ++ c' ++ _APPLIST_EXT)%string -> c = c').
  { intros H. apply append_inj_l in H. now apply append_inj_r in H. }
  destruct (String.eqb store_path ""); [exact Hend|].
  destruct (String.eqb _ "/"); intros H; apply append_inj_l in H.
  - auto.
  - apply (append_inj_l "/") in H. auto.
Qed.
End Paths.

(** ** Grouping of the export *)

Section ExportGrouping.
Import AppDownload.
Variable E : Env.
Variable store_path : string.














End ExportGrouping.

Section ExportGroupingRuns.
Import AppDownload.

End ExportGroupingRuns.

(** ** More on the catalog store *)

Section CatalogStore.
Import AppDownload.

Lemma get_none_set {V : Type} (d : Dict.t V) (k : string) (v : V) :
  Dict.get k d = None -> Dict.set k v d = d ++ [(k, v)].
Proof.
  induction d as [|[k' v'] d IH]; cbn; intros H; [reflexivity|].
  destruct (String.eqb k k'); [discriminate|]. now rewrite IH.
Qed.











(** One key of the section: the assignment is made, or the key is absent
    and the product is left as it is; nothing is raised. *)
Lemma load_key_returns (key : string) (r : ConfigParser.SectionProxy)
    (assign : string -> Core.BaseProduct -> Core.BaseProduct)
    (p : Core.BaseProduct) :
  exists p',
    load_key key r assign p = Ok p'
    /\ (ConfigParser.has_option key r = false -> p' = p)
    /\ (forall (X : Type) (f : Core.BaseProduct -> X),
          (forall v q, f (assign v q) = f q) -> f p' = f p).
Proof.
  unfold load_key, ConfigParser.has_option, Dict.contains, ConfigParser.get.
  destruct (Dict.get (ConfigParser.optionxform key) r) as [v|]; cbn [bind];
    eexists; (split; [reflexivity|]); split; auto; discriminate.
Qed.

Lemma load_update_available_returns (r : ConfigParser.SectionProxy)
    (p : Core.BaseProduct) :
  match ConfigParser.getboolean _PROD_UPDATE_AVAIL_KEYNAME r with
  | Raise e => load_update_available r p = Raise e
  | Ok _ =>
      exists p',
        load_update_available r p = Ok p'
        /\ (ConfigParser.has_option _PROD_UPDATE_AVAIL_KEYNAME r = false ->
            p' = p)
        /\ (forall (X : Type) (f : Core.BaseProduct -> X),
              (forall b q, f (Core.set_update_available b q) = f q) ->
              f p' = f p)
  end.
Proof.
  unfold load_update_available, ConfigParser.has_option, Dict.contains.
  unfold ConfigParser.getboolean at 1 2.
  destruct (Dict.get (ConfigParser.optionxform _PROD_UPDATE_AVAIL_KEYNAME) r)
    as [v|] eqn:Hv.
  - unfold ConfigParser.getboolean. rewrite Hv.
    destruct (Dict.get (Str.lower v) ConfigParser.BOOLEAN_STATES) as [b|];
      cbn [bind]; [|reflexivity].
    eexists. split; [reflexivity|]. split; auto. discriminate.
  - eexists. split; [reflexivity|]. split; auto.
Qed.

(** An attribute that no assignment of a step touches, or whose key is
    absent at the step that would assign it, is the one before the
    step. *)
Ltac kept Habsent :=
  repeat match goal with
  | Hf : forall (X : Type) (f : Core.BaseProduct -> X), _ -> f ?q' = f _
    |- context [?g ?q'] => rewrite (Hf _ g) by (intros; reflexivity)
  | Hs : _ = false -> ?q' = _ |- context [?g ?q'] => rewrite (Hs Habsent)
  end.

(** What [_load_product] makes of a section whose [update_available], if
    there, is a boolean. *)
Lemma _load_product_present (s : string) (r : ConfigParser.SectionProxy)
    (catalog : ConfigParser.t) (p : Core.BaseProduct)
    (b : option bool) :
  Dict.get s catalog = Some r ->
  ConfigParser.getboolean _PROD_UPDATE_AVAIL_KEYNAME r = Ok b ->
  exists p',
    _load_product s p catalog = Ok p'
    /\ Core.id p' = s
    /\ (ConfigParser.has_option "name" r = false -> Core.name p' = Core.name p)
    /\ (ConfigParser.has_option "version" r = false ->
        Core.version p' = Core.version p)
    /\ (ConfigParser.has_option "published" r = false ->
        Core.published p' = Core.published p)
    /\ (ConfigParser.has_option "target" r = false ->
        Core.target p' = Core.target p)
    /\ (ConfigParser.has_option "release_note" r = false ->
        Core.release_note p' = Core.release_note p)
    /\ (ConfigParser.has_option "installer" r = false ->
        Core.installer p' = Core.installer p)
    /\ (ConfigParser.has_option "std_inst_args" r = false ->
        Core.std_inst_args p' = Core.std_inst_args p)
    /\ (ConfigParser.has_option "silent_inst_args" r = false ->
        Core.silent_inst_arg p' = Core.silent_inst_arg p)
    /\ (ConfigParser.has_option "update_available" r = false ->
        Core.update_available p' = Core.update_available p)
    /\ (ConfigParser.has_option "update_version" r = false ->
        Core.update_version p' = Core.update_version p)
    /\ (ConfigParser.has_option "update_published" r = false ->
        Core.update_published p' = Core.update_published p).
Proof.
  intros Hs Hb.
  unfold _load_product, ConfigParser.has_section, Dict.contains,
    ConfigParser.getitem.
  rewrite Hs. cbn [bind].
  destruct (load_key_returns _PROD_NAME_KEYNAME r Core.set_name
              (Core.set_id s p)) as (p1 & -> & Hs1 & Hf1). cbn [bind].
  destruct (load_key_returns _PROD_VERSION_KEYNAME r Core.set_version p1)
    as (p2 & -> & Hs2 & Hf2). cbn [bind].
  destruct (load_key_returns _PROD_PUBDATE_KEYNAME r Core.set_published p2)
    as (p3 & -> & Hs3 & Hf3). cbn [bind].
  destruct (load_key_returns _PROD_TARGET_KEYNAME r Core.set_target p3)
    as (p4 & -> & Hs4 & Hf4). cbn [bind].
  destruct (load_key_returns _PROD_REL_NOTE_URL_KEYNAME r
              Core.set_release_note p4) as (p5 & -> & Hs5 & Hf5). cbn [bind].
  destruct (load_key_returns _PROD_INSTALLER_KEYNAME r Core.set_installer p5)
    as (p6 & -> & Hs6 & Hf6). cbn [bind].
  destruct (load_key_returns _PROD_STD_INSTALL_ARGS_KEYNAME r
              Core.set_std_inst_args p6) as (p7 & -> & Hs7 & Hf7). cbn [bind].
  destruct (load_key_returns _PROD_SILENT_INSTALL_ARGS_KEYNAME r
              Core.set_silent_inst_arg p7) as (p8 & -> & Hs8 & Hf8).
  cbn [bind].
  pose proof (load_update_available_returns r p8) as H9. rewrite Hb in H9.
  destruct H9 as (p9 & -> & Hs9 & Hf9). cbn [bind].
  destruct (load_key_returns _PROD_UPDATE_VERSION_KEYNAME r
              Core.set_update_version p9) as (p10 & -> & Hs10 & Hf10).
  cbn [bind].
  destruct (load_key_returns _PROD_UPDATE_PUBDATE_KEYNAME r
              Core.set_update_published p10) as (p11 & -> & Hs11 & Hf11).
  cbn [bind].
  exists p11. split; [reflexivity|].
  split; [kept I; reflexivity|].
  repeat split; intros Habsent; kept Habsent; reflexivity.
Qed.

(** Where [getboolean] raises on the section, [_load_product] raises
    with it. *)
Lemma load_product_raises_only_on_boolean_aux (s : string)
    (r : ConfigParser.SectionProxy) (catalog : ConfigParser.t)
    (p : Core.BaseProduct) :
  Dict.get s catalog = Some r ->
  match ConfigParser.getboolean _PROD_UPDATE_AVAIL_KEYNAME r with
  | Raise e => _load_product s p catalog = Raise e
  | Ok _ => True
  end.
Proof.
  intros Hs.
  destruct (ConfigParser.getboolean _PROD_UPDATE_AVAIL_KEYNAME r)
    as [b|e] eqn:Hb; [exact I|].
  unfold _load_product, ConfigParser.has_section, Dict.contains,
    ConfigParser.getitem.
  rewrite Hs. cbn [bind].
  repeat match goal with
  | |- context [load_key ?k r ?a ?q] =>
      let p' := fresh "p" in
      destruct (load_key_returns k r a q) as (p' & -> & _ & _); cbn [bind]
  | |- context [load_update_available r ?q] =>
      let H := fresh "H" in
      pose proof (load_update_available_returns r q) as H;
      rewrite Hb in H; rewrite H; cbn [bind]
  end.
  reflexivity.
Qed.


(** X5.  Loading a section that lacks a key leaves the attribute of that
    key as the product had it, for each of the eleven keys. *)
Theorem load_product_keeps_attributes_of_absent_keys (s : string)
    (r : ConfigParser.SectionProxy) (catalog : ConfigParser.t)
    (p p' : Core.BaseProduct) :
  Dict.get s catalog = Some r ->
  _load_product s p catalog = Ok p' ->
  (ConfigParser.has_option "name" r = false -> Core.name p' = Core.name p)
  /\ (ConfigParser.has_option "version" r = false ->
      Core.version p' = Core.version p)
  /\ (ConfigParser.has_option "published" r = false ->
      Core.published p' = Core.published p)
  /\ (ConfigParser.has_option "target" r = false ->
      Core.target p' = Core.target p)
  /\ (ConfigParser.has_option "release_note" r = false ->
      Core.release_note p' = Core.release_note p)
  /\ (ConfigParser.has_option "installer" r = false ->
      Core.installer p' = Core.installer p)
  /\ (ConfigParser.has_option "std_inst_args" r = false ->
      Core.std_inst_args p' = Core.std_inst_args p)
  /\ (ConfigParser.has_option "silent_inst_args" r = false ->
      Core.silent_inst_arg p' = Core.silent_inst_arg p)
  /\ (ConfigParser.has_option "update_available" r = false ->
      Core.update_available p' = Core.update_available p)
  /\ (ConfigParser.has_option "update_version" r = false ->
      Core.update_version p' = Core.update_version p)
  /\ (ConfigParser.has_option "update_published" r = false ->
      Core.update_published p' = Core.update_published p).
Proof.
  intros Hs Hload.
  pose proof (load_product_raises_only_on_boolean_aux s r catalog p Hs) as Haux.
  destruct (ConfigParser.getboolean _PROD_UPDATE_AVAIL_KEYNAME r)
    as [b|e] eqn:Hb.
  - destruct (_load_product_present s r catalog p b Hs Hb)
      as (q & Hq & _ & Hkept).
    rewrite Hq in Hload. injection Hload as <-. exact Hkept.
  - rewrite Haux in Hload. discriminate Hload.
Qed.
End CatalogStore.

(** ** The configuration *)

Section Configuration.
Import AppDownload.
Variable E : Env.


Lemma has_section_get (name : string) (c : ConfigParser.t) :
  ConfigParser.has_section name c = true
  <-> exists r, Dict.get name c = Some r.
Proof. apply contains_get. Qed.





End Configuration.

(** ** Products that are not enabled, and the product's own path *)

Section Products.
Import AppDownload.
Variable E : Env.

(** A loop keeps what each of its turns keeps, whether it returns or
    raises. *)
Lemma for_each_invariant {S A : Type} (I : S -> Prop) (body : A -> SE.M S unit)
    (l : list A) :
  (forall x s r s', I s -> body x s = (r, s') -> I s') ->
  forall s r s', I s -> SE.for_each body l s = (r, s') -> I s'.
Proof.
  intros Hbody. induction l as [|x l IH]; intros s r s' HI H;
    cbn [SE.for_each] in H.
  - injection H as _ <-. exact HI.
  - apply bind_inv in H.
    destruct H as [(a & s1 & Hx & Hl)|(e & Hx & _)].
    + exact (IH _ _ _ (Hbody _ _ _ _ HI Hx) Hl).
    + exact (Hbody _ _ _ _ HI Hx).
Qed.

(** When a computation raises inside a sequence, the state is the one its
    raising part left. *)
Lemma raise_bind {A B X : Type} (f : state -> X) (m : SE.M state A)
    (k : A -> SE.M state B) :
  SE.keeps f m ->
  (forall a s e s', k a s = (Raise e, s') -> f s' = f s) ->
  forall s e s', SE.bind m k s = (Raise e, s') -> f s' = f s.
Proof.
  intros Hm Hk s e s' H. apply bind_inv in H.
  destruct H as [(a & s1 & H1 & H2)|(e' & H1 & _)].
  - rewrite (Hk _ _ _ _ H2). exact (Hm _ _ _ H1).
  - exact (Hm _ _ _ H1).
Qed.

(** X7.  A configuration that [_load_config] rejects is not marked as
    checked: on the object it leaves, [_check_update] and [_fetch_update]
    raise an assertion error and do nothing. *)
Theorem rejected_config_is_not_checked (s s' : state) (e : exn) :
  _checked_config s = false ->
  _load_config E s = (Raise e, s') ->
  _checked_config s' = false
  /\ _check_update E s' = (Raise AssertionError, s')
  /\ _fetch_update E s' = (Raise AssertionError, s').
Proof.
  intros Hunchecked Hrun.
  assert (Hkept : _checked_config s' = _checked_config s).
  { revert s e s' Hrun Hunchecked. unfold _load_config.
    intros s e s' Hrun _. revert s e s' Hrun.
    apply raise_bind; [keeps_all|]. intros _.
    apply raise_bind; [keeps_all|]. intros s0.
    apply raise_bind; [keeps_all|]. intros _.
    apply raise_bind; [keeps_all|]. intros sets.
    apply raise_bind; [unfold _load_config_app; keeps_all|]. intros _.
    intros s e s' H. discriminate H. }
  rewrite Hunchecked in Hkept.
  split; [exact Hkept|].
  unfold _check_update, _fetch_update, assert_checked_config.
  cbv beta iota delta [SE.bind SE.get SE.raise SE.ret].
  rewrite Hkept. split; reflexivity.
Qed.

Lemma _check_update_app_keeps_other_sections (app_id other : string) :
  app_id <> other ->
  SE.keeps (fun s => Dict.get other (_catalog s)) (_check_update_app E app_id).
Proof.
  intros Hne. unfold _check_update_app, load_product, dump_product.
  keeps_all. apply keeps_modify. intros s0.
  cbn [_catalog set_catalog]. now apply _dump_product_other.
Qed.

Lemma _fetch_update_app_keeps_other_sections (app_id other : string) :
  app_id <> other ->
  SE.keeps (fun s => Dict.get other (_catalog s)) (_fetch_update_app E app_id).
Proof.
  intros Hne. unfold _fetch_update_app, load_product, dump_product.
  keeps_all. apply keeps_modify. intros s0.
  cbn [_catalog set_catalog]. now apply _dump_product_other.
Qed.

Lemma _fetch_update_app_keeps_config (app_id : string) :
  SE.keeps _config (_fetch_update_app E app_id).
Proof. unfold _fetch_update_app, load_product, dump_product. keeps_all. Qed.

(** The turn of a product that is not enabled does nothing. *)
Lemma _check_update_app_skips (s : state) (apps : ConfigParser.SectionProxy)
    (app_id : string) (flag : option bool) :
  Dict.get _APPS_LIST_SECTNAME (_config s) = Some apps ->
  ConfigParser.getboolean app_id apps = Ok flag ->
  ConfigParser.truthy flag = false ->
  _check_update_app E app_id s = (Ok tt, s)
  /\ _fetch_update_app E app_id s = (Ok tt, s)
  /\ _write_applist_app E app_id s = (Ok tt, s).
Proof.
  intros Happs Hflag Hoff.
  cbv beta iota zeta delta [_check_update_app _fetch_update_app
    _write_applist_app SE.bind SE.get SE.lift SE.ret ConfigParser.getitem].
  rewrite Happs, Hflag. cbv beta iota. rewrite Hoff. auto.
Qed.

(** X8.  The catalog record of a product that the configuration does not
    enable is the same after [_check_update] and after [_fetch_update] as
    before, whether they return or raise and whatever the plugins of the
    other products do. *)
Theorem disabled_product_record_untouched (s : state)
    (apps : ConfigParser.SectionProxy) (app_id : string) (flag : option bool) :
  Dict.get _APPS_LIST_SECTNAME (_config s) = Some apps ->
  ConfigParser.getboolean app_id apps = Ok flag ->
  ConfigParser.truthy flag = false ->
  (forall r s', _check_update E s = (r, s') ->
     Dict.get app_id (_catalog s') = Dict.get app_id (_catalog s))
  /\ (forall r s', _fetch_update E s = (r, s') ->
        Dict.get app_id (_catalog s') = Dict.get app_id (_catalog s)).
Proof.
  intros Happs Hflag Hoff.
  set (I := fun s1 : state =>
              _config s1 = _config s
              /\ Dict.get app_id (_catalog s1) = Dict.get app_id (_catalog s)).
  assert (HI : I s) by (split; reflexivity).
  assert (Hcheck : forall x s1 r s1',
            I s1 -> _check_update_app E x s1 = (r, s1') -> I s1').
  { intros x s1 r s1' [Hc Hd] Hstep.
    destruct (String.eqb_spec x app_id) as [->|Hne].
    - destruct (_check_update_app_skips s1 apps app_id flag) as [Hskip _];
        rewrite ?Hc; try assumption.
      rewrite Hskip in Hstep. injection Hstep as _ <-. now split.
    - split.
      + rewrite (_check_update_app_keeps_config E x _ _ _ Hstep). exact Hc.
      + rewrite (_check_update_app_keeps_other_sections x app_id Hne _ _ _ Hstep).
        exact Hd. }
  assert (Hfetch : forall x s1 r s1',
            I s1 -> _fetch_update_app E x s1 = (r, s1') -> I s1').
  { intros x s1 r s1' [Hc Hd] Hstep.
    destruct (String.eqb_spec x app_id) as [->|Hne].
    - destruct (_check_update_app_skips s1 apps app_id flag) as (_ & Hskip & _);
        rewrite ?Hc; try assumption.
      rewrite Hskip in Hstep. injection Hstep as _ <-. now split.
    - split.
      + rewrite (_fetch_update_app_keeps_config x _ _ _ Hstep). exact Hc.
      + rewrite (_fetch_update_app_keeps_other_sections x app_id Hne _ _ _ Hstep).
        exact Hd. }
  split; intros r s';
    unfold _check_update, _fetch_update, assert_checked_config;
    cbv beta iota delta [SE.bind SE.get SE.raise SE.ret SE.lift
      ConfigParser.getitem];
    destruct (_checked_config s); cbv beta iota; rewrite ?Happs;
    cbv beta iota; intros Hrun.
  - exact (proj2 (for_each_invariant I _ _ Hcheck _ _ _ HI Hrun)).
  - now injection Hrun as _ <-.
  - exact (proj2 (for_each_invariant I _ _ Hfetch _ _ _ HI Hrun)).
  - now injection Hrun as _ <-.
Qed.

End Products.

(** ** Properties maintained *)

Section Maintains.
Context {S : Type} (I : S -> Prop).
Import SE.

Lemma maintains_ret {A : Type} (a : A) : maintains I (ret a).
Proof. intros s r s' HI H. injection H as _ <-. exact HI. Qed.

Lemma maintains_raise {A : Type} (e : exn) : maintains I (@raise S A e).
Proof. intros s r s' HI H. injection H as _ <-. exact HI. Qed.

Lemma maintains_lift {A : Type} (x : result A) : maintains I (lift x).
Proof. intros s r s' HI H. injection H as _ <-. exact HI. Qed.

Lemma maintains_get : maintains I get.
Proof. intros s r s' HI H. injection H as _ <-. exact HI. Qed.

Lemma maintains_modify (g : S -> S) :
  (forall s, I s -> I (g s)) -> maintains I (modify g).
Proof. intros Hg s r s' HI H. injection H as _ <-. auto. Qed.

Lemma maintains_bind {A B : Type} (m : M S A) (k : A -> M S B) :
  maintains I m -> (forall a, maintains I (k a)) -> maintains I (bind m k).
Proof.
  intros Hm Hk s r s' HI H. apply bind_inv in H.
  destruct H as [(a & s1 & H1 & H2)|(e & H1 & _)].
  - exact (Hk a _ _ _ (Hm _ _ _ HI H1) H2).
  - exact (Hm _ _ _ HI H1).
Qed.

Lemma maintains_for_each {A : Type} (body : A -> M S unit) (l : list A) :
  (forall x, maintains I (body x)) -> maintains I (for_each body l).
Proof.
  intros Hbody. induction l as [|x l IH]; cbn [for_each].
  - apply maintains_ret.
  - apply maintains_bind; auto.
Qed.
End Maintains.

(** Taking a computation apart, to show what it maintains; the changes of
    the state are left to show. *)
Ltac maintains_step :=
  match goal with
  | |- SE.maintains _ (SE.bind _ _) => apply maintains_bind; [|intros ?]
  | |- SE.maintains _ (SE.ret _) => apply maintains_ret
  | |- SE.maintains _ (SE.raise _) => apply maintains_raise
  | |- SE.maintains _ (SE.lift _) => apply maintains_lift
  | |- SE.maintains _ SE.get => apply maintains_get
  | |- SE.maintains _ (SE.for_each _ _) => apply maintains_for_each; intros ?
  | |- SE.maintains _ (if ?b then _ else _) => destruct b eqn:?
  | |- SE.maintains _ (match ?x with _ => _ end) => destruct x eqn:?
  end.

(** ** Saving, and the files of the export *)

Section Saving.
Import AppDownload.
Variable E : Env.


(** [_write_catalog], with all it does to the object. *)
Lemma _write_catalog_state (s : state) :
  _write_catalog E s
  = (Ok tt,
     set_open_files
       (filter (fun p => negb (String.eqb p (_catalog_filename s)))
               (_catalog_filename s :: open_files s))
       (set_fs (apply_ops (_catalog_filename s)
                  (catalog_ops (now_isoformat E (ticks s)) (_catalog s))
                  (fs s))
          (set_ticks (Datatypes.S (ticks s)) s))).
Proof.
  cbv beta iota zeta delta [_write_catalog SE.bind SE.get open_w now
    SE.modify SE.ret file_close].
  unfold file_write at 1. cbv beta iota delta [SE.modify].
  rewrite for_each_file_write. unfold catalog_ops, apply_ops.
  cbn [fold_left]. destruct s; reflexivity.
Qed.


Lemma _write_catalog_saves (s s' : state) :
  _write_catalog E s = (Ok tt, s') ->
  _catalog_filename s' = _catalog_filename s
  /\ _catalog s' = _catalog s
  /\ Dict.get (_catalog_filename s) (fs s')
     = Some (catalog_header (now_isoformat E (ticks s))
               :: ConfigParser.write (_catalog s)).
Proof.
  rewrite _write_catalog_state. intros H. injection H as <-.
  cbn [fs _catalog _catalog_filename set_open_files set_fs set_ticks].
  split; [reflexivity|]. split; [reflexivity|].
  unfold catalog_ops.
  change (apply_ops ?path (Truncate :: Append ?h :: map Append ?l) ?d)
    with (apply_ops path (map Append (h :: l)) (Dict.set path [] d)).
  apply (apply_appends (_catalog_filename s)
           (catalog_header (now_isoformat E (ticks s))
              :: ConfigParser.write (_catalog s)) []), get_set_same.
Qed.

(** X11.  When [check] or [download] returns, the catalog file on disk
    holds a header and then the catalog the object has in memory, as
    [ConfigParser.write] writes it. *)
Theorem saved_catalog_is_catalog_in_memory (s s' : state) :
  check E s = (Ok tt, s') \/ download E s = (Ok tt, s') ->
  exists dt,
    Dict.get (_catalog_filename s') (fs s')
    = Some (catalog_header dt :: ConfigParser.write (_catalog s')).
Proof.
  unfold check, download. intros [H|H];
    apply bind_inv in H;
    destruct H as [(? & s1 & _ & H)|(e & _ & Habs)]; try discriminate;
    apply bind_inv in H;
    destruct H as [(? & s2 & _ & H)|(e & _ & Habs)]; try discriminate;
    apply bind_inv in H;
    destruct H as [(? & s3 & _ & H)|(e & _ & Habs)]; try discriminate;
    destruct (_write_catalog_saves s3 s' H) as (-> & -> & Hfile); eauto.
Qed.
End Saving.

(** ** The export, from start to end *)

Section ExportWhole.
Import AppDownload.
Variable E : Env.

Lemma _write_applist_comp_maintains_open_on_record
    (store_path app_line comp_name : string) :
  SE.maintains
    (fun s => forall p, In p (open_files s) ->
                        In p (map snd (_app_set_file s)))
    (_write_applist_comp E store_path app_line comp_name).
Proof.
  intros s r s' HI.
  cbv beta iota zeta delta [_write_applist_comp SE.bind SE.get SE.ret
    SE.raise SE.modify open_w file_write now Dict.contains].
  destruct (Dict.get (Str.strip comp_name) (_app_set_file s)) as [file|]
    eqn:Hopen; cbn [negb]; cbv beta iota; intros H; injection H as _ <-;
    cbn [open_files _app_set_file set_fs set_open_files set_app_set_file
         set_ticks].
  - exact HI.
  - rewrite (get_none_set _ _ _ Hopen), map_app. cbn [map snd].
    intros p [<-|Hin]; apply in_or_app; [right; now left|left; auto].
Qed.

Lemma _write_applist_app_maintains_open_on_record (app_id : string) :
  SE.maintains
    (fun s => forall p, In p (open_files s) ->
                        In p (map snd (_app_set_file s)))
    (_write_applist_app E app_id).
Proof.
  unfold _write_applist_app. repeat maintains_step.
  apply _write_applist_comp_maintains_open_on_record.
Qed.

(** The loop that closes the files: it returns, and a file is open after
    it only if it was open before and is not one of those closed. *)
Lemma close_all (files : Dict.t string) :
  forall s : state,
  exists s',
    SE.for_each (fun item => file_close (snd item)) files s = (Ok tt, s')
    /\ fs s' = fs s
    /\ forall p, In p (open_files s') ->
         In p (open_files s) /\ ~ In p (map snd files).
Proof.
  induction files as [|[c file] files IH]; intros s.
  - exists s. split; [reflexivity|]. split; [reflexivity|]. auto.
  - cbn [SE.for_each]. unfold SE.bind. unfold file_close at 1, SE.modify.
    cbn [snd].
    destruct (IH (set_open_files
                    (filter (fun p => negb (String.eqb p file))
                            (open_files s)) s))
      as (s' & -> & Hfs & Hopen).
    exists s'. split; [reflexivity|]. split; [exact Hfs|].
    intros p Hin. destruct (Hopen p Hin) as [Hin1 Hnot].
    cbn [open_files set_open_files] in Hin1.
    apply filter_In in Hin1. destruct Hin1 as [Hin1 Hne].
    split; [exact Hin1|]. cbn [map snd In]. intros [<-|Hin2]; [|auto].
    now rewrite String.eqb_refl in Hne.
Qed.

(** X12.  When [_write_applist], started with no file open, returns, no
    file is open: every applist file it created is closed. *)
Theorem export_closes_its_files (s s' : state) :
  open_files s = [] ->
  _write_applist E s = (Ok tt, s') ->
  open_files s' = [].
Proof.
  intros Hnone. unfold _write_applist. intros H.
  apply bind_inv in H.
  destruct H as [(s0 & s0' & Hget & H)|(e & _ & Habs)]; [|discriminate].
  injection Hget as <- <-.
  apply bind_inv in H.
  destruct H as [(apps & s1 & Happs & H)|(e & _ & Habs)]; [|discriminate].
  injection Happs as _ <-.
  apply bind_inv in H.
  destruct H as [([] & s2 & Hloop & H)|(e & _ & Habs)]; [|discriminate].
  apply bind_inv in H.
  destruct H as [(s3 & s3' & Hget & H)|(e & _ & Habs)]; [|discriminate].
  injection Hget as <- <-.
  assert (Hrecord : forall p, In p (open_files s2) ->
                              In p (map snd (_app_set_file s2))).
  { refine (maintains_for_each
              (fun s => forall p, In p (open_files s) ->
                                  In p (map snd (_app_set_file s)))
              _ _ _ _ _ _ _ Hloop).
    - intros x. apply _write_applist_app_maintains_open_on_record.
    - rewrite Hnone. intros p []. }
  destruct (close_all (_app_set_file s2) s2) as (s4 & Hclose & _ & Hopen).
  rewrite Hclose in H. injection H as <-.
  destruct (open_files s4) as [|p l] eqn:Hl; [reflexivity|].
  destruct (Hopen p (or_introl eq_refl)) as [Hin Hnot].
  contradiction (Hnot (Hrecord p Hin)).
Qed.


End ExportWhole.

(** ** More on the MakeMKV plugin *)

Section PluginEdges.
Import MakeMKV.
Variable E : Env.

#[local] Arguments _get_release_date : simpl never.
#[local] Arguments _get_location : simpl never.

Ltac run_plugin :=
  cbv beta iota zeta delta
    [check_update fetch_update SE.bind SE.get SE.ret SE.lift SE.raise
     SE.modify self set_self set_prod logger request create_tmp os_unlink
     temporary_retrieve file_retrieve parser_parse _get_version
     _get_release_note fst snd].

(** X14.  When the remote file cannot be retrieved, [check_update] raises
    the error of the retrieval and the product object is the one before
    the call: an update a former check had found is still pending, and no
    temporary file is left. *)
Theorem check_update_retrieval_failure (p : Product) (w : World) (e : exn) :
  _temporary_retrieve E (_catalog_location p) = Raise e ->
  exists w',
    check_update E (p, w) = (Raise e, (p, w'))
    /\ requests w' = requests w ++ [Some (_catalog_location p)]
    /\ tmp_files w' = tmp_files w.
Proof.
  intros Hfail. run_plugin. rewrite Hfail.
  eexists. split; [reflexivity|]. split; reflexivity.
Qed.

(** X15.  When the remote file is retrieved and parsed but gives no
    version, the element being absent or empty, [check_update] returns
    with no update pending, an update a former check had found being
    dropped, and the temporary file is released. *)
Theorem check_update_without_version (p : Product) (w : World)
    (local_filename : string) (find : string -> option Element) :
  _temporary_retrieve E (_catalog_location p) = Ok local_filename ->
  parse E local_filename = Ok find ->
  find "Program_Info/Program_Version" = None
    \/ find "Program_Info/Program_Version" = Some {| text := None |} ->
  exists w',
    check_update E (p, w)
    = (Ok tt, (set_parser find (set_update None p), w'))
    /\ ~ In local_filename (tmp_files w').
Proof.
  intros Hretr Hparse Hversion. run_plugin. rewrite Hretr. cbv beta iota.
  assert (Hreleased : forall l : list string,
            ~ In local_filename
                (filter (fun f => negb (String.eqb f local_filename))
                        (local_filename :: l))).
  { intros l Hin. apply filter_In in Hin. destruct Hin as [_ Hin].
    now rewrite String.eqb_refl in Hin. }
  assert (Hreset : update p = None -> set_update None p = p).
  { intros Hup. destruct p; cbn in Hup; subst; reflexivity. }
  destruct (update p) eqn:Hup; [|rewrite (Hreset eq_refl)];
    cbv beta iota; rewrite Hparse; cbn;
    destruct Hversion as [-> | ->]; cbn;
    eexists; (split; [reflexivity|]); cbn; apply Hreleased.
Qed.

(** X18.  When the remote file gives a newer version but its release year
    is no number, [check_update] raises the error of [int]: no update is
    pending, an update a former check had found being lost, and the
    temporary file is still there. *)
Theorem check_update_malformed_release_year (p : Product) (w : World)
    (local_filename new_version : string) (find : string -> option Element)
    (year : Element) (e : exn) :
  _temporary_retrieve E (_catalog_location p) = Ok local_filename ->
  parse E local_filename = Ok find ->
  find "Program_Info/Program_Version" = Some {| text := Some new_version |} ->
  semver_lt E (version p) new_version = true ->
  find "Program_Info/Program_Release_Year" = Some year ->
  int E (text year) = Raise e ->
  exists p' w',
    check_update E (p, w) = (Raise e, (p', w'))
    /\ p' = set_parser find (set_update None p)
    /\ In local_filename (tmp_files w').
Proof.
  intros Hretr Hparse Hversion Hlt Hyear Hint.
  run_plugin. rewrite Hretr. cbv beta iota.
  assert (Hreset : update p = None -> set_update None p = p).
  { intros Hup. destruct p; cbn in Hup; subst; reflexivity. }
  destruct (update p) eqn:Hup; [|rewrite (Hreset eq_refl)];
    cbv beta iota; rewrite Hparse;
    cbn; rewrite Hversion; cbn; rewrite Hversion; cbn; rewrite Hlt;
    unfold _get_release_date; run_plugin; cbn [_parser set_parser set_update];
    rewrite Hyear; cbv beta iota; rewrite Hint;
    eexists; eexists; (split; [reflexivity|]);
    (split; [reflexivity|]); cbn; now left.
Qed.

(** X16.  When the installer is retrieved and renamed, [fetch_update]
    asks the network for the location of the pending update and for
    nothing else, fills the pending update (target and standard arguments
    empty, silent arguments /S, the release note of MakeMKV), and loads
    the product from the dump of the pending update so filled. *)
Theorem fetch_update_applies_update (p cand renamed : Product) (w : World)
    (path local_filename : string) :
  update p = Some cand ->
  _file_retrieve E (location cand) path = Ok local_filename ->
  _rename_installer E
    (set_product_code ""
       (set_silent_inst_args "/S"
          (set_std_inst_args ""
             (set_release_note "http://www.makemkv.com/download/"
                (set_target "" cand)))))
    local_filename = Ok renamed ->
  exists w',
    fetch_update E path (p, w)
    = (Ok tt, (load E (dump E renamed) (set_update (Some renamed) p), w'))
    /\ requests w' = requests w ++ [location cand]
    /\ tmp_files w' = tmp_files w.
Proof.
  intros Hpending Hretr Hrename. revert Hrename.
  run_plugin. rewrite Hpending. cbv beta iota. rewrite Hretr. cbn.
  rewrite Hpending. cbn. intros ->. cbn.
  eexists. split; [reflexivity|]. split; reflexivity.
Qed.

(** X17.  When the installer is retrieved but cannot be renamed,
    [fetch_update] raises the error of the renaming: the attributes of the
    installed version are the ones before the call, and the update is
    still pending, with the attributes [fetch_update] had filled in
    already. *)
Theorem fetch_update_rename_failure (p cand : Product) (w : World)
    (path local_filename : string) (e : exn) :
  update p = Some cand ->
  _file_retrieve E (location cand) path = Ok local_filename ->
  _rename_installer E
    (set_product_code ""
       (set_silent_inst_args "/S"
          (set_std_inst_args ""
             (set_release_note "http://www.makemkv.com/download/"
                (set_target "" cand)))))
    local_filename = Raise e ->
  exists p' w',
    fetch_update E path (p, w) = (Raise e, (p', w'))
    /\ version p' = version p /\ published p' = published p
    /\ installer p' = installer p /\ target p' = target p
    /\ release_note p' = release_note p
    /\ std_inst_args p' = std_inst_args p
    /\ silent_inst_args p' = silent_inst_args p
    /\ update p'
       = Some (set_product_code ""
                 (set_silent_inst_args "/S"
                    (set_std_inst_args ""
                       (set_release_note "http://www.makemkv.com/download/"
                          (set_target "" cand))))).
Proof.
  intros Hpending Hretr Hrename. revert Hrename.
  run_plugin. rewrite Hpending. cbv beta iota. rewrite Hretr. cbn.
  rewrite Hpending. cbn. intros ->. cbn.
  eexists. eexists. split; [reflexivity|]. repeat split.
Qed.
End PluginEdges.

(** ** The cases, run *)

Section OrchestratorCases.
Import AppDownload.

Lemma load_product_keeps_attributes_of_absent_keys_witness :
  let catalog := [("alpha", Scenario.partial_record)] in
  let p := Example.fresh "Alpha" in
  let p' := Core.set_update_available true
              (Core.set_version "2.0.0" (Core.set_id "alpha" p)) in
  _load_product "alpha" p catalog = Ok p'
  /\ ConfigParser.has_option "name" Scenario.partial_record = false
  /\ Core.name p' = "Alpha".
Proof.
  cbv zeta. split; [reflexivity|]. split; [reflexivity|].
  apply (load_product_keeps_attributes_of_absent_keys "alpha"
           Scenario.partial_record [("alpha", Scenario.partial_record)]
           (Example.fresh "Alpha")
           (Core.set_update_available true
              (Core.set_version "2.0.0"
                 (Core.set_id "alpha" (Example.fresh "Alpha"))))
           eq_refl eq_refl).
  reflexivity.
Defined.

Lemma rejected_config_is_not_checked_witness :
  let out := _load_config Example.env Scenario.app_no_core in
  fst out = Raise (MissingMandatorySectionError "core")
  /\ _checked_config (snd out) = false
  /\ _check_update Example.env (snd out) = (Raise AssertionError, snd out)
  /\ _fetch_update Example.env (snd out) = (Raise AssertionError, snd out).
Proof.
  cbv zeta. split; [reflexivity|].
  apply (rejected_config_is_not_checked Example.env Scenario.app_no_core
           (snd (_load_config Example.env Scenario.app_no_core))
           (MissingMandatorySectionError "core")); reflexivity.
Defined.

Lemma disabled_product_record_untouched_witness :
  ConfigParser.getboolean "alpha" [("alpha", "no"); ("beta", "yes")]
    = Ok (Some false)
  /\ (forall r s', _check_update Example.env Scenario.loaded_beta_only = (r, s') ->
        Dict.get "alpha" (_catalog s')
        = Dict.get "alpha" (_catalog Scenario.loaded_beta_only))
  /\ (forall r s', _fetch_update Example.env Scenario.loaded_beta_only = (r, s') ->
        Dict.get "alpha" (_catalog s')
        = Dict.get "alpha" (_catalog Scenario.loaded_beta_only)).
Proof.
  split; [reflexivity|].
  apply (disabled_product_record_untouched Example.env
           Scenario.loaded_beta_only [("alpha", "no"); ("beta", "yes")]
           "alpha" (Some false)); reflexivity.
Defined.


Lemma saved_catalog_is_catalog_in_memory_witness :
  let out := check Example.env Scenario.app_beta_only in
  fst out = Ok tt
  /\ exists dt,
       Dict.get (_catalog_filename (snd out)) (fs (snd out))
       = Some (catalog_header dt :: ConfigParser.write (_catalog (snd out))).
Proof.
  cbv zeta. split; [vm_compute; reflexivity|].
  apply (saved_catalog_is_catalog_in_memory Example.env Scenario.app_beta_only
           (snd (check Example.env Scenario.app_beta_only))).
  left. vm_compute. reflexivity.
Defined.

Lemma export_closes_its_files_witness :
  let s := Example.loaded Example.catalog in
  let out := _write_applist Example.env s in
  open_files s = []
  /\ fst out = Ok tt
  /\ Dict.keys (_app_set_file (snd out)) = ["pc1"; "pc2"]
  /\ open_files (snd out) = [].
Proof.
  cbv zeta. split; [reflexivity|]. split; [vm_compute; reflexivity|].
  split; [vm_compute; reflexivity|].
  apply (export_closes_its_files Example.env (Example.loaded Example.catalog)
           (snd (_write_applist Example.env (Example.loaded Example.catalog))));
    vm_compute; reflexivity.
Defined.

End OrchestratorCases.

Section PluginCases.
Import MakeMKV.

Lemma check_update_retrieval_failure_witness :
  let E := Scenario.mkv_env (Raise (OSError "host unreachable"))
             (Ok Example.pad_file) (Ok "setup.exe") (Ok tt) in
  let p := Example.makemkv_pending E in
  exists w',
    check_update E (p, Example.world0)
    = (Raise (OSError "host unreachable"), (p, w'))
    /\ requests w' = requests Example.world0 ++ [Some (_catalog_location p)]
    /\ tmp_files w' = tmp_files Example.world0.
Proof.
  cbv zeta.
  apply (check_update_retrieval_failure
           (Scenario.mkv_env (Raise (OSError "host unreachable"))
              (Ok Example.pad_file) (Ok "setup.exe") (Ok tt))
           (Example.makemkv_pending _) Example.world0
           (OSError "host unreachable")).
  reflexivity.
Defined.

Lemma check_update_without_version_witness :
  let E := Scenario.mkv_env (Ok "/tmp/tmp8k2makemkv.xml")
             (Ok (fun _ => None)) (Ok "setup.exe") (Ok tt) in
  let p := Example.makemkv_pending E in
  exists w',
    check_update E (p, Example.world0)
    = (Ok tt, (set_parser (fun _ => None) (set_update None p), w'))
    /\ ~ In "/tmp/tmp8k2makemkv.xml" (tmp_files w').
Proof.
  cbv zeta.
  apply (check_update_without_version
           (Scenario.mkv_env (Ok "/tmp/tmp8k2makemkv.xml")
              (Ok (fun _ => None)) (Ok "setup.exe") (Ok tt))
           (Example.makemkv_pending _) Example.world0
           "/tmp/tmp8k2makemkv.xml" (fun _ => None));
    [reflexivity|reflexivity|left; reflexivity].
Defined.

Lemma check_update_malformed_release_year_witness :
  let E := Scenario.mkv_env (Ok "/tmp/tmp8k2makemkv.xml")
             (Ok Scenario.pad_file_bad_year) (Ok "setup.exe") (Ok tt) in
  let p := Example.makemkv_pending E in
  exists p' w',
    check_update E (p, Example.world0)
    = (Raise (ValueError "invalid literal for int()"), (p', w'))
    /\ p' = set_parser Scenario.pad_file_bad_year (set_update None p)
    /\ In "/tmp/tmp8k2makemkv.xml" (tmp_files w').
Proof.
  cbv zeta.
  apply (check_update_malformed_release_year
           (Scenario.mkv_env (Ok "/tmp/tmp8k2makemkv.xml")
              (Ok Scenario.pad_file_bad_year) (Ok "setup.exe") (Ok tt))
           (Example.makemkv_pending _) Example.world0
           "/tmp/tmp8k2makemkv.xml" "1.2.0" Scenario.pad_file_bad_year
           {| text := Some "MMXXIV" |}
           (ValueError "invalid literal for int()")); reflexivity.
Defined.

Lemma fetch_update_applies_update_witness :
  let E := Scenario.mkv_env (Ok "/tmp/tmp8k2makemkv.xml")
             (Ok Example.pad_file) (Ok "/srv/store/makemkv/Setup_MakeMKV_v1.2.0.exe")
             (Ok tt) in
  let p := Example.makemkv_pending E in
  exists p' w',
    fetch_update E "/srv/store/makemkv" (p, Example.world0) = (Ok tt, (p', w'))
    /\ version p' = "1.2.0"
    /\ update p' = None
    /\ requests w'
       = [Some "http://www.makemkv.com/download/Setup_MakeMKV_v1.2.0.exe"].
Proof.
  cbv zeta.
  set (E := Scenario.mkv_env (Ok "/tmp/tmp8k2makemkv.xml")
              (Ok Example.pad_file)
              (Ok "/srv/store/makemkv/Setup_MakeMKV_v1.2.0.exe") (Ok tt)).
  destruct (fetch_update_applies_update E (Example.makemkv_pending E)
              (set_location
                 (Some "http://www.makemkv.com/download/Setup_MakeMKV_v1.2.0.exe")
                 (set_version "1.2.0" (__init__ E)))
              (set_product_code ""
                 (set_silent_inst_args "/S"
                    (set_std_inst_args ""
                       (set_release_note "http://www.makemkv.com/download/"
                          (set_target ""
                             (set_location
                                (Some "http://www.makemkv.com/download/Setup_MakeMKV_v1.2.0.exe")
                                (set_version "1.2.0" (__init__ E))))))))
              Example.world0 "/srv/store/makemkv"
              "/srv/store/makemkv/Setup_MakeMKV_v1.2.0.exe"
              eq_refl eq_refl eq_refl) as (w' & Hrun & Hreq & _).
  eexists. exists w'. split; [exact Hrun|].
  split; [reflexivity|]. split; [reflexivity|exact Hreq].
Defined.

Lemma fetch_update_rename_failure_witness :
  let E := Scenario.mkv_env (Ok "/tmp/tmp8k2makemkv.xml")
             (Ok Example.pad_file) (Ok "/srv/store/makemkv/Setup_MakeMKV_v1.2.0.exe")
             (Raise (OSError "file exists")) in
  let p := Example.makemkv_pending E in
  exists p' w' prod,
    fetch_update E "/srv/store/makemkv" (p, Example.world0)
    = (Raise (OSError "file exists"), (p', w'))
    /\ version p' = "1.0.0"
    /\ update p' = Some prod
    /\ silent_inst_args prod = "/S".
Proof.
  cbv zeta.
  set (E := Scenario.mkv_env (Ok "/tmp/tmp8k2makemkv.xml")
              (Ok Example.pad_file)
              (Ok "/srv/store/makemkv/Setup_MakeMKV_v1.2.0.exe")
              (Raise (OSError "file exists"))).
  destruct (fetch_update_rename_failure E (Example.makemkv_pending E)
              (set_location
                 (Some "http://www.makemkv.com/download/Setup_MakeMKV_v1.2.0.exe")
                 (set_version "1.2.0" (__init__ E)))
              Example.world0 "/srv/store/makemkv"
              "/srv/store/makemkv/Setup_MakeMKV_v1.2.0.exe"
              (OSError "file exists") eq_refl eq_refl eq_refl)
    as (p' & w' & Hrun & Hversion & _ & _ & _ & _ & _ & _ & Hupdate).
  exists p', w'. eexists. split; [exact Hrun|].
  split; [rewrite Hversion; reflexivity|]. split; [exact Hupdate|reflexivity].
Defined.
End PluginCases.

Section MoreCases.
Import MakeMKV.

(** X19.  When [check_update] goes through, the remote file being
    retrieved and parsed and giving a version and a readable release date,
    the temporary file it was retrieved into is released, whether an
    update was found or not. *)
Theorem check_update_releases_temporary_file (E : Env) (p : Product)
    (w : World) (local_filename : string) (find : string -> option Element)
    (item : Element) (new_version : string) :
  _temporary_retrieve E (_catalog_location p) = Ok local_filename ->
  parse E local_filename = Ok find ->
  find "Program_Info/Program_Version" = Some item ->
  text item = Some new_version ->
  (semver_lt E (version p) new_version = true ->
   forall q w1, _parser q = find ->
     exists date, fst (_get_release_date E (q, w1)) = Ok date) ->
  exists p' w',
    check_update E (p, w) = (Ok tt, (p', w'))
    /\ ~ In local_filename (tmp_files w')
    /\ forall other, other <> local_filename ->
         (In other (tmp_files w') <-> In other (tmp_files w)).
Proof.
  intros H1 H2 H3 H4 H5.
  destruct (check_update_returns E p w _ _ _ _ H1 H2 H3 H4 H5)
    as (p' & w' & Hrun & _ & _ & _ & Htmp).
  exists p', w'. split; [exact Hrun|]. rewrite Htmp. split.
  - intros Hin. apply filter_In in Hin.
    destruct Hin as [_ Hin]. now rewrite String.eqb_refl in Hin.
  - intros other Hne. rewrite filter_In. cbn [In]. split.
    + intros [[Heq|Hin] _]; [congruence|exact Hin].
    + intros Hin. split; [now right|].
      apply String.eqb_neq in Hne. now rewrite Hne.
Qed.

Lemma check_update_releases_temporary_file_witness :
  let E := Example.mkv_env (Ok Example.pad_file) (Ok "setup.exe") in
  exists p' w',
    check_update E (Example.makemkv E, Example.world0) = (Ok tt, (p', w'))
    /\ ~ In "/tmp/tmp8k2makemkv.xml" (tmp_files w')
    /\ forall other, other <> "/tmp/tmp8k2makemkv.xml" ->
         (In other (tmp_files w') <-> In other (tmp_files Example.world0)).
Proof.
  cbv zeta.
  apply (check_update_releases_temporary_file
           (Example.mkv_env (Ok Example.pad_file) (Ok "setup.exe"))
           (Example.makemkv _) Example.world0 "/tmp/tmp8k2makemkv.xml"
           Example.pad_file {| text := Some "1.2.0" |} "1.2.0");
    try reflexivity.
  intros _ q w1 Hq. now apply pad_file_release_date.
Defined.

(** X20.  Two components have two applist files: under one store, the
    files of components of different names have different paths. *)
Theorem applist_files_are_distinct (store_path c c' : string) :
  c <> c' ->
  AppDownload.applist_filename store_path c
  <> AppDownload.applist_filename store_path c'.
Proof.
  intros Hne Heq. apply Hne. exact (applist_filename_inj _ _ _ Heq).
Qed.

Lemma applist_files_are_distinct_witness :
  AppDownload.applist_filename "/srv/store" "pc1" = "/srv/store/applist-pc1.txt"
  /\ AppDownload.applist_filename "/srv/store" "pc1"
     <> AppDownload.applist_filename "/srv/store" "pc2".
Proof.
  split; [reflexivity|].
  apply (applist_files_are_distinct "/srv/store" "pc1" "pc2").
  intros H. discriminate H.
Defined.
End MoreCases.
